(** * PI-Calculator: the dataset loader and the chat endpoint of [app.py]

    A shallow embedding of [load_item_data] and [chat_api], and the
    properties of the loading-and-aggregation pipeline and of the request
    validation that the specification states about them.

    Python values are modelled as follows.
    - A [str] is the sequence of its Unicode code points ([pystr]); the
      ordering of strings is Python's: lexicographic on code points.
    - The three key columns of the table hold strings and the price
      column numbers; a cell is an [option], [None] being pandas' NA
      (null / NaN).
    - The numeric type of the price column is an interface ([Numeric]):
      the pipeline only calls [mean] and [round] on it. The column of
      the code is float64: [Numeric_float] gives the two operations as
      pandas and numpy compute them on binary64 numbers.
    - [print] in the loader is modelled by the log line it returns; what
      the handler does besides returning is a list of [Event].
    - An exception is a value of [exn]; a computation that can raise
      returns [exn + A]. *)

From Stdlib Require Import List NArith ZArith Bool Sorted Permutation.
From Stdlib Require Import String Ascii DecimalString.
From Stdlib Require Import Floats.PrimFloat Floats.SpecFloat Floats.FloatOps.
From Corelib Require Import PrimInt63.
From Stdlib Require Import QArith Qround.
Import ListNotations.

Set Implicit Arguments.
Local Close Scope Q_scope.

(** ** Python's ordering of strings and tuples *)

(** Three-way comparison: what Python's [<] and [==] give on [str] and
    on tuples of [str]. *)
Class Cmp (A : Type) : Type := {
  cmp : A -> A -> comparison
}.

(** The laws of a strict total order. *)
Class CmpLaws (A : Type) {CA : Cmp A} : Prop := {
  cmp_eq : forall a b : A, cmp a b = Eq <-> a = b;
  cmp_antisym : forall a b : A, cmp b a = CompOpp (cmp a b);
  cmp_trans : forall a b c : A, cmp a b = Lt -> cmp b c = Lt -> cmp a c = Lt
}.
Arguments CmpLaws A {CA}.

Definition clt {A} `{Cmp A} (a b : A) : Prop := cmp a b = Lt.
Definition cle {A} `{Cmp A} (a b : A) : Prop := cmp a b <> Gt.
Definition eqb {A} `{Cmp A} (a b : A) : bool :=
  match cmp a b with Eq => true | _ => false end.

(** Sequences compare lexicographically; a proper prefix is smaller. *)
Fixpoint list_cmp {A} `{Cmp A} (l1 l2 : list A) : comparison :=
  match l1, l2 with
  | [], [] => Eq
  | [], _ :: _ => Lt
  | _ :: _, [] => Gt
  | a :: l1', b :: l2' =>
      match cmp a b with
      | Eq => list_cmp l1' l2'
      | c => c
      end
  end.

(** Tuples compare component by component, the first difference decides. *)
Definition pair_cmp {A B} `{Cmp A} `{Cmp B} (p q : A * B) : comparison :=
  match cmp (fst p) (fst q) with
  | Eq => cmp (snd p) (snd q)
  | c => c
  end.

#[export] Instance Cmp_N : Cmp N := { cmp := N.compare }.
#[export] Instance Cmp_list {A} `{Cmp A} : Cmp (list A) := { cmp := list_cmp }.
#[export] Instance Cmp_pair {A B} `{Cmp A} `{Cmp B} : Cmp (A * B) :=
  { cmp := pair_cmp }.

(** ** Python strings *)

(** A [str]: its code points, in order. *)
Definition pystr : Type := list N.

(** The [str] whose code points are the bytes of an ASCII literal. *)
Definition of_ascii (s : string) : pystr :=
  map N_of_ascii (list_ascii_of_string s).

(** [str.isspace] on one code point: the characters [str.strip()] removes. *)
Definition isspace (c : N) : bool :=
  (((9 <=? c) && (c <=? 13)) || ((28 <=? c) && (c <=? 32))
   || (c =? 133) || (c =? 160) || (c =? 5760)
   || ((8192 <=? c) && (c <=? 8202))
   || (c =? 8232) || (c =? 8233) || (c =? 8239) || (c =? 8287)
   || (c =? 12288))%N.

Fixpoint lstrip (s : pystr) : pystr :=
  match s with
  | [] => []
  | c :: s' => if isspace c then lstrip s' else s
  end.

Definition rstrip (s : pystr) : pystr := rev (lstrip (rev s)).

(** [s.strip()]: leading and trailing whitespace removed. *)
Definition strip (s : pystr) : pystr := rstrip (lstrip s).

(** A blank string: empty, or whitespace only. *)
Definition blank (s : pystr) : bool := forallb isspace s.

(** ** The built-ins [sorted] and [unique] *)

Section Builtins.
Context {A : Type} `{Cmp A}.

(** [x] goes after the elements that are not greater: the sort is stable. *)
Fixpoint insert_sorted (x : A) (l : list A) : list A :=
  match l with
  | [] => [x]
  | y :: l' =>
      match cmp x y with
      | Lt => x :: l
      | _ => y :: insert_sorted x l'
      end
  end.

(** Python's [sorted(l)]. *)
Definition sorted (l : list A) : list A :=
  fold_left (fun acc x => insert_sorted x acc) l [].

Definition mem (x : A) (l : list A) : bool := existsb (eqb x) l.

Fixpoint unique_from (seen : list A) (l : list A) : list A :=
  match l with
  | [] => []
  | x :: l' =>
      if mem x seen then unique_from seen l'
      else x :: unique_from (x :: seen) l'
  end.

(** [Series.unique()]: the distinct values in order of first appearance. *)
Definition unique (l : list A) : list A := unique_from [] l.
End Builtins.

(** ** Exceptions *)

Inductive exn : Type :=
  | FileNotFoundError
  | KeyError (labels : list pystr)
  | AttributeError (attr : pystr)
  | HTTPException (code : nat)
  | OtherException (msg : pystr).

Definition bind {A B} (m : exn + A) (k : A -> exn + B) : exn + B :=
  match m with
  | inl e => inl e
  | inr a => k a
  end.

Notation "x <- m ;; k" := (bind m (fun x => k))
  (at level 61, m at next level, right associativity).

(** ** The data model of the loader *)

(** The numeric type of the price column, with the two operations the
    loader applies to it: [Series.mean] of the values of a group (of no
    value: NaN) and [round] to a number of decimals. *)
Class Numeric (num : Type) : Type := {
  mean : list num -> num;
  round : num -> nat -> num
}.

Definition COL_ITEM_NAME : pystr := of_ascii "subsubcategory".
Definition COL_PRICE : pystr := of_ascii "avg_price".
Definition COL_LOCATION : pystr := of_ascii "location".
Definition COL_UNIT : pystr := of_ascii "unit_raw".

(** The grouping key: [(location, unit, name)]. *)
Definition key : Type := pystr * pystr * pystr.

Section Loader.
Context (num : Type) {Hnum : Numeric num}.

(** One row of the table, restricted to the four columns the loader
    reads; [None] is a missing value. *)
Record Row : Type := {
  subsubcategory : option pystr;
  avg_price : option num;
  location : option pystr;
  unit_raw : option pystr
}.

(** A frame: the labels of the columns it has, and its rows. The field
    of a row under a label the frame does not have is never read. *)
Record DataFrame : Type := {
  columns : list pystr;
  rows : list Row
}.

(** What is at [parquet_path]: nothing, a file whose reading raises [e],
    or a table. *)
Inductive ParquetFile : Type :=
  | Absent
  | Unreadable (e : exn)
  | Table (df : DataFrame).

(** An aggregated record, after the columns are renamed. *)
Record Item : Type := {
  item_location : pystr;
  item_unit : pystr;
  item_name : pystr;
  item_price : num
}.

Definition item_key (it : Item) : key :=
  (item_location it, item_unit it, item_name it).

(** The line the loader prints. *)
Inductive LogLine : Type :=
  | LogLoaded (n : nat)
  | LogNotFound
  | LogMissingColumn (e : list pystr)
  | LogUnexpected (e : exn).

(** *** pandas operations *)

Definition read_parquet (file : ParquetFile) : exn + DataFrame :=
  match file with
  | Absent => inl FileNotFoundError
  | Unreadable e => inl e
  | Table df => inr df
  end.

(** Whether the cell of row [r] under [label] is NA. *)
Definition isna (r : Row) (label : pystr) : bool :=
  if eqb label COL_ITEM_NAME then
    match subsubcategory r with None => true | Some _ => false end
  else if eqb label COL_PRICE then
    match avg_price r with None => true | Some _ => false end
  else if eqb label COL_LOCATION then
    match location r with None => true | Some _ => false end
  else if eqb label COL_UNIT then
    match unit_raw r with None => true | Some _ => false end
  else false.

(** [df.dropna(subset=...)]: a label of [subset] that is not a column
    raises [KeyError]; otherwise the rows with an NA under a label of
    [subset] are dropped. *)
Definition dropna (subset : list pystr) (df : DataFrame) : exn + DataFrame :=
  match filter (fun c => negb (mem c (columns df))) subset with
  | [] =>
      inr {| columns := columns df;
             rows := filter (fun r => negb (existsb (isna r) subset)) (rows df) |}
  | missing => inl (KeyError missing)
  end.

(** [astype(str)] on a cell of a string column. *)
Definition astype_str (c : option pystr) : pystr :=
  match c with
  | Some s => s
  | None => of_ascii "None"
  end.

(** [df[df[COL_ITEM_NAME].astype(str).str.strip() != '']] *)
Definition drop_blank_names (df : DataFrame) : DataFrame :=
  {| columns := columns df;
     rows := filter
               (fun r => negb (eqb (strip (astype_str (subsubcategory r))) []))
               (rows df) |}.

(** The key of a row; a row with an NA in a key column has none and
    belongs to no group ([groupby] has [dropna=True]). *)
Definition key_of (r : Row) : option key :=
  match location r, unit_raw r, subsubcategory r with
  | Some l, Some u, Some n => Some (l, u, n)
  | _, _, _ => None
  end.

(** A row joins its group; groups are kept in ascending key order
    ([groupby] has [sort=True]), values in row order. *)
Fixpoint insert_row (k : key) (p : option num)
    (groups : list (key * list (option num))) : list (key * list (option num)) :=
  match groups with
  | [] => [(k, [p])]
  | (k', ps) :: rest =>
      match cmp k k' with
      | Lt => (k, [p]) :: groups
      | Eq => (k', ps ++ [p]) :: rest
      | Gt => (k', ps) :: insert_row k p rest
      end
  end.

(** [df.groupby([COL_LOCATION, COL_UNIT, COL_ITEM_NAME])[COL_PRICE]] *)
Definition groupby (df : DataFrame) : list (key * list (option num)) :=
  fold_left
    (fun groups r =>
       match key_of r with
       | Some k => insert_row k (avg_price r) groups
       | None => groups
       end)
    (rows df) [].

(** The values of a group that are not NA. *)
Fixpoint notna (ps : list (option num)) : list num :=
  match ps with
  | [] => []
  | Some p :: ps' => p :: notna ps'
  | None :: ps' => notna ps'
  end.

(** [.mean().reset_index()] with the columns renamed to
    [location], [unit], [name], [price]. *)
Definition mean_reset_index (groups : list (key * list (option num))) : list Item :=
  map (fun g =>
         let '(l, u, n) := fst g in
         {| item_location := l; item_unit := u; item_name := n;
            item_price := mean (notna (snd g)) |})
      groups.

(** [grouped_df['price'].round(2)] *)
Definition round_price (decimals : nat) (items : list Item) : list Item :=
  map (fun it =>
         {| item_location := item_location it; item_unit := item_unit it;
            item_name := item_name it;
            item_price := round (item_price it) decimals |})
      items.

(** *** [load_item_data] *)

(** The body of the [try]. *)
Definition load_item_data_try (file : ParquetFile)
    : exn + (list Item * list pystr * list pystr) :=
  df <- read_parquet file ;;
  df <- dropna [COL_ITEM_NAME; COL_LOCATION; COL_UNIT; COL_PRICE] df ;;
  let df := drop_blank_names df in
  let grouped_df := mean_reset_index (groupby df) in
  let grouped_df := round_price 2 grouped_df in
  let unique_locations := sorted (unique (map item_location grouped_df)) in
  let unique_units := sorted (unique (map item_unit grouped_df)) in
  let item_data_list := grouped_df in
  inr (item_data_list, unique_locations, unique_units).

(** The loader: the printed line and the returned triple. *)
Definition load_item_data (file : ParquetFile)
    : LogLine * (list Item * list pystr * list pystr) :=
  match load_item_data_try file with
  | inr (item_data_list, unique_locations, unique_units) =>
      (LogLoaded (List.length item_data_list),
       (item_data_list, unique_locations, unique_units))
  | inl FileNotFoundError => (LogNotFound, ([], [], []))
  | inl (KeyError e) => (LogMissingColumn e, ([], [], []))
  | inl e => (LogUnexpected e, ([], [], []))
  end.

Definition PI_DATA (file : ParquetFile) : list Item :=
  fst (fst (snd (load_item_data file))).
Definition UNIQUE_LOCATIONS (file : ParquetFile) : list pystr :=
  snd (fst (snd (load_item_data file))).
Definition UNIQUE_UNITS (file : ParquetFile) : list pystr :=
  snd (snd (load_item_data file)).
End Loader.


(** ** The chat endpoint *)

(** A value decoded from JSON: what [request.json] holds. *)
#[warnings="-register-all"]
Inductive pyval : Type :=
  | PyNone
  | PyBool (b : bool)
  | PyInt (z : Z)
  | PyFloat (f : float)
  | PyStr (s : pystr)
  | PyList (l : list pyval)
  | PyDict (d : list (pystr * pyval)).

(** Truth value of an object: what [not v] negates. *)
Definition truthy (v : pyval) : bool :=
  match v with
  | PyNone => false
  | PyBool b => b
  | PyInt z => negb (Z.eqb z 0)
  | PyFloat f => negb (PrimFloat.eqb f 0%float)
  | PyStr s => match s with [] => false | _ :: _ => true end
  | PyList l => match l with [] => false | _ :: _ => true end
  | PyDict d => match d with [] => false | _ :: _ => true end
  end.

(** [d.get(k)] on the items of a [dict] (its keys are distinct): the
    value under [k], [None] when there is none. *)
Fixpoint dict_get (d : list (pystr * pyval)) (k : pystr) : pyval :=
  match d with
  | [] => PyNone
  | (k', v) :: d' => if eqb k k' then v else dict_get d' k
  end.

(** [v.get(k)]: only a [dict] has the method. *)
Definition py_get (v : pyval) (k : pystr) : exn + pyval :=
  match v with
  | PyDict d => inr (dict_get d k)
  | _ => inl (AttributeError (of_ascii "get"))
  end.

(** [str(n)] of a length. *)
Definition str_of_nat (n : nat) : pystr :=
  of_ascii (NilEmpty.string_of_uint (Nat.to_uint n)).

(** The reasoning-service client: [genai.Client(api_key=...)]. *)
Record Client : Type := { api_key : pystr }.

(** What the handler returns to Flask: [jsonify({'response': body})] with
    a status, or an exception it does not catch. *)
Inductive Outcome : Type :=
  | Response (body : pystr) (status : nat)
  | Unhandled (e : exn).

(** What the handler does besides returning. *)
Inductive Event : Type :=
  | PromptBuilt (system_instruction full_prompt : pystr)
  | Dispatched (model contents system_instruction : pystr)
  | Printed (line : pystr).

Section Chat.
Context (num : Type).

(** The collaborators of the handler that the repository does not define:
    the remote call [client.models.generate_content(...)] returning
    [response.text] or raising, [DataFrame.to_json(orient='records')],
    and the formatting of a value and of an exception in an f-string. *)
Variable generate_content : Client -> pystr -> pystr -> pystr -> exn + pystr.
Variable to_json : list (Item num) -> pystr.
Variable format_value : pyval -> pystr.
Variable format_exn : exn -> pystr.

Definition system_instruction_of (PI_DATA : list (Item num)) : pystr :=
  of_ascii "You are an expert Price Intelligent (PI) assistant. Your task is to analyze the provided "
  ++ of_ascii "JSON data containing item names, locations, units, and average prices in RM, and answer "
  ++ of_ascii "the user's question based *only* on this data. The data has "
  ++ str_of_nat (List.length PI_DATA) ++ of_ascii " entries."
  ++ of_ascii "Provide specific item names, prices, locations, and units from the data to support your answer. "
  ++ of_ascii "Do not invent information. Format the final response clearly, using bold text for key results.".

Definition newline : pystr := [10%N].

Definition full_prompt_of (item_data_json : pystr) (user_prompt : pyval) : pystr :=
  of_ascii "Data for analysis (JSON Array of Objects):" ++ newline
  ++ of_ascii "```json" ++ newline ++ item_data_json ++ newline
  ++ of_ascii "```" ++ newline ++ newline
  ++ of_ascii "User Question:" ++ newline ++ format_value user_prompt.

(** [chat_api]: the handler of [POST /api/chat]. [gemini_client] is the
    module's client ([None] when its construction raised), [PI_DATA] the
    loaded snapshot and [request_json] what reading [request.json] gives. *)
Definition chat_api (gemini_client : option Client) (PI_DATA : list (Item num))
    (request_json : exn + pyval) : list Event * Outcome :=
  match gemini_client with
  | None =>
      ([], Response
             (of_ascii "AI Client not initialized. Please check your API key and setup.")
             500)
  | Some client =>
      match (body <- request_json ;; py_get body (of_ascii "prompt")) with
      | inl e => ([], Unhandled e)
      | inr user_prompt =>
          if negb (truthy user_prompt) then
            ([], Response (of_ascii "No prompt provided.") 400)
          else
            let item_data_json := to_json PI_DATA in
            let system_instruction := system_instruction_of PI_DATA in
            let full_prompt := full_prompt_of item_data_json user_prompt in
            let built := PromptBuilt system_instruction full_prompt in
            let sent :=
              Dispatched (of_ascii "gemini-2.5-flash") full_prompt system_instruction in
            match generate_content client (of_ascii "gemini-2.5-flash")
                    full_prompt system_instruction with
            | inr text => ([built; sent], Response text 200)
            | inl e =>
                ([built; sent; Printed (of_ascii "Gemini API Error: " ++ format_exn e)],
                 Response
                   (of_ascii "Sorry, there was an error processing your request: "
                    ++ format_exn e)
                   500)
            end
      end
  end.

Definition status_of (o : Outcome) : option nat :=
  match o with
  | Response _ status => Some status
  | Unhandled _ => None
  end.

(** A prompt was built, resp. the remote service was called. *)
Definition is_prompt_built (ev : Event) : bool :=
  match ev with PromptBuilt _ _ => true | _ => false end.
Definition is_dispatched (ev : Event) : bool :=
  match ev with Dispatched _ _ _ => true | _ => false end.
End Chat.

(** ** The vocabulary of the specification *)

(** The four required fields. *)
Definition REQUIRED : list pystr :=
  [COL_ITEM_NAME; COL_LOCATION; COL_UNIT; COL_PRICE].

(** [k1] comes before [k2] in the lexicographic order of
    [(location, unit, name)]. *)
Definition key_before (k1 k2 : key) : Prop :=
  let '(l1, u1, n1) := k1 in
  let '(l2, u2, n2) := k2 in
  clt l1 l2 \/ (l1 = l2 /\ (clt u1 u2 \/ (u1 = u2 /\ clt n1 n2))).

Section Vocabulary.
Context (num : Type) {Hnum : Numeric num}.

(** The schema has the four required columns. *)
Definition has_columns (df : DataFrame num) : bool :=
  forallb (fun c => mem c (columns df)) REQUIRED.

(** The frame that reaches [groupby]: lines 40 and 41 of the loader. *)
Definition cleaned (df : DataFrame num) : exn + DataFrame num :=
  df <- dropna REQUIRED df ;; inr (drop_blank_names df).

(** Lines 44 to 50: grouping, averaging, renaming and rounding. *)
Definition aggregate (df : DataFrame num) : list (Item num) :=
  round_price 2 (mean_reset_index (groupby df)).

(** No required field of the row is missing. *)
Definition complete (r : Row num) : bool :=
  match subsubcategory r, avg_price r, location r, unit_raw r with
  | Some _, Some _, Some _, Some _ => true
  | _, _, _, _ => false
  end.

Definition blank_cell (c : option pystr) : bool :=
  match c with
  | Some s => blank s
  | None => false
  end.

(** The item name is an empty or whitespace-only string. *)
Definition blank_name (r : Row num) : bool := blank_cell (subsubcategory r).

(** Some required field holds an empty or whitespace-only string (the
    price is a number, never a string). *)
Definition blank_field (r : Row num) : bool :=
  blank_cell (subsubcategory r) || blank_cell (location r)
  || blank_cell (unit_raw r).

(** The row survives the cleaning. *)
Definition survives (r : Row num) : bool := complete r && negb (blank_name r).

(** The frame of the surviving rows. *)
Definition surviving (df : DataFrame num) : DataFrame num :=
  {| columns := columns df; rows := filter survives (rows df) |}.

(** The row has key [k]. *)
Definition has_key (k : key) (r : Row num) : bool :=
  match key_of r with
  | Some k' => eqb k' k
  | None => false
  end.

(** The prices of a list of rows, in order. *)
Definition prices (rs : list (Row num)) : list num := notna (map (@avg_price num) rs).

(** Groups in the making: each key with the values of its rows. *)
Definition Groups : Type := list (key * list (option num)).

(** The values [groups] holds for key [k]. *)
Fixpoint values_of (k : key) (groups : list (key * list (option num)))
    : list (option num) :=
  match groups with
  | [] => []
  | (k', ps) :: rest => if eqb k k' then ps else values_of k rest
  end.

(** What the loader returns, without the printed line. *)
Definition loaded (file : ParquetFile num)
    : list (Item num) * list pystr * list pystr :=
  snd (load_item_data file).

(** The frame [cols], [before ++ r :: after] and the same frame without
    the row [r]. *)
Definition with_row (cols : list pystr) (before : list (Row num)) (r : Row num)
    (after : list (Row num)) : DataFrame num :=
  {| columns := cols; rows := before ++ r :: after |}.
Definition without_row (cols : list pystr) (before after : list (Row num))
    : DataFrame num :=
  {| columns := cols; rows := before ++ after |}.

(** Row [r] contributes nothing: the loader returns the same with and
    without it. *)
Definition contributes_nothing (cols : list pystr) (before : list (Row num))
    (r : Row num) (after : list (Row num)) : Prop :=
  loaded (Table (with_row cols before r after)) =
  loaded (Table (without_row cols before after)).

(** The sources the loader cannot load: no file, a file that cannot be
    read, a table whose schema lacks a required column. *)
Definition failing_source (file : ParquetFile num) : Prop :=
  match file with
  | Absent _ => True
  | Unreadable _ _ => True
  | Table df => has_columns df = false
  end.
End Vocabulary.

(** Lines 26 to 30: the module's client is the constructed one, or [None]
    when the construction raised. *)
Definition init_gemini_client (construction : exn + Client) : option Client :=
  match construction with
  | inr client => Some client
  | inl _ => None
  end.

Definition NOT_INITIALIZED : pystr :=
  of_ascii "AI Client not initialized. Please check your API key and setup.".
Definition NO_PROMPT : pystr := of_ascii "No prompt provided.".

(** The JSON object has a field [k]. *)
Definition has_field (d : list (pystr * pyval)) (k : pystr) : bool :=
  existsb (fun kv => eqb k (fst kv)) d.

(** The JSON object lacks the [prompt] field, or carries an empty prompt. *)
Definition prompt_missing_or_empty (d : list (pystr * pyval)) : bool :=
  negb (has_field d (of_ascii "prompt"))
  || match dict_get d (of_ascii "prompt") with
     | PyStr [] => true
     | _ => false
     end.

(** A reasoning service that answers with the prompt it is sent, and
    trivial renderings of data, values and exceptions. *)
Definition echo_service (client : Client) (model contents system_instruction : pystr)
    : exn + pystr := inr contents.
Definition no_json (items : list (Item float)) : pystr := [].
Definition show_value (v : pyval) : pystr :=
  match v with
  | PyStr s => s
  | _ => []
  end.
Definition show_exn (e : exn) : pystr := [].

(** The body [{}]. *)
Definition empty_object : pyval := PyDict [].

(** ** Prices in binary64 *)

(** The price column is float64. [Series.mean] of a group is pandas'
    [group_mean]: the values that are not NaN are added in row order by
    compensated summation, and the sum is divided by their number. *)
Record MeanState : Type := {
  sumx : float;
  compensation : float;
  nobs : int
}.

Definition mean_step (st : MeanState) (val : float) : MeanState :=
  if is_nan val then st
  else
    let y := (val - compensation st)%float in
    let t := (sumx st + y)%float in
    let c := (t - sumx st - y)%float in
    {| sumx := t;
       compensation := if is_nan c then 0%float else c;
       nobs := PrimInt63.add (nobs st) 1%uint63 |}.

Definition group_mean (values : list float) : float :=
  let st :=
    fold_left mean_step values
      {| sumx := 0%float; compensation := 0%float; nobs := 0%uint63 |} in
  if PrimInt63.eqb (nobs st) 0%uint63 then nan
  else (sumx st / of_uint63 (nobs st))%float.

(** [rint]: the nearest integer, a tie going to the even one. From
    [2^52] on every binary64 number is an integer. *)
Definition two52 : float := 4503599627370496%float.

Definition rint (x : float) : float :=
  if is_nan x then x
  else if (two52 <=? abs x)%float then x
  else if (x =? 0)%float then x
  else if (x <? 0)%float then (- ((- x + two52) - two52))%float
  else ((x + two52) - two52)%float.

(** [10.0 ** n], exact for the small [n] of the loader. *)
Definition power_of_ten (n : nat) : float :=
  Nat.iter n (fun p => (p * 10)%float) 1%float.

(** [numpy.round(x, decimals)] on float64: multiply by the power of
    ten, [rint], divide by the power of ten. *)
Definition np_round (x : float) (decimals : nat) : float :=
  match decimals with
  | O => rint x
  | S _ => (rint (x * power_of_ten decimals) / power_of_ten decimals)%float
  end.

#[export] Instance Numeric_float : Numeric float := {
  mean := group_mean;
  round := np_round
}.

(** In a float64 column the missing value is NaN. *)
Definition price_cell (x : float) : option float :=
  if is_nan x then None else Some x.


(** ** The words of the specification, in exact arithmetic *)








(** ** Sample tables *)

Definition all_columns : list pystr :=
  [COL_ITEM_NAME; COL_PRICE; COL_LOCATION; COL_UNIT].

Definition row_of (item : string) (price : float) (loc unit : string) : Row float :=
  {| subsubcategory := Some (of_ascii item);
     avg_price := price_cell price;
     location := Some (of_ascii loc);
     unit_raw := Some (of_ascii unit) |}.

(** The two rows of the specification's example. *)
Definition rice_table : DataFrame float :=
  {| columns := all_columns;
     rows := [row_of "Rice" 5 "KL" "kg"; row_of "Rice" 7 "KL" "kg"] |}.

(** A row whose location is the empty string. *)
Definition blank_location_row : Row float := row_of "Rice" 5 "" "kg".

(** A table that lacks the price column. *)
Definition no_price_table : DataFrame float :=
  {| columns := [COL_ITEM_NAME; COL_LOCATION; COL_UNIT];
     rows := [row_of "Rice" 5 "KL" "kg"] |}.

(** The record the specification's example expects. *)
Definition rice_record : Item float :=
  {| item_location := of_ascii "KL"; item_unit := of_ascii "kg";
     item_name := of_ascii "Rice"; item_price := 6%float |}.

(** A row without a price, and a row whose name is whitespace only. *)
Definition missing_price_row : Row float :=
  {| subsubcategory := Some (of_ascii "Rice"); avg_price := None;
     location := Some (of_ascii "KL"); unit_raw := Some (of_ascii "kg") |}.
Definition blank_name_row : Row float := row_of "  " 5 "KL" "kg".


(** Two rows of one group with the same large price: their sum is
    beyond the binary64 range. *)
Definition huge : float := 0x1.1ccf385ebc8a0p+1023%float (* 1e308 *).


(** ** Module start-up and the page routes *)

Section Startup.
(** The literal of line 12, the fallback of [os.getenv]. *)
Variable placeholder : pystr.
(** The constructor [genai.Client(api_key=...)], which may raise. *)
Variable genai_Client : pystr -> exn + Client.

(** [os.getenv("GEMINI_API_KEY", placeholder)]: the value of the
    variable when it is set, the fallback otherwise. *)
Definition API_KEY (GEMINI_API_KEY : option pystr) : pystr :=
  match GEMINI_API_KEY with
  | Some value => value
  | None => placeholder
  end.

(** Line 13: whether the warning about the placeholder key is printed. *)
Definition placeholder_warning (GEMINI_API_KEY : option pystr) : bool :=
  eqb (API_KEY GEMINI_API_KEY) placeholder.

(** Lines 26 to 30, from the environment. *)
Definition gemini_client (GEMINI_API_KEY : option pystr) : option Client :=
  init_gemini_client (genai_Client (API_KEY GEMINI_API_KEY)).
End Startup.

Section Pages.
Context (num : Type) {Hnum : Numeric num}.

(** A value handed to a template. *)
Inductive TemplateValue : Type :=
  | ItemList (items : list (Item num))
  | StringList (strings : list pystr).

(** Flask's [render_template(name, **context)]. *)
Variable render_template : pystr -> list (pystr * TemplateValue) -> pystr.

(** [index]: the page of the budget calculator, from the loaded snapshot. *)
Definition index (file : ParquetFile num) : pystr :=
  render_template (of_ascii "index.html")
    [(of_ascii "item_data", ItemList (PI_DATA file));
     (of_ascii "locations", StringList (UNIQUE_LOCATIONS file));
     (of_ascii "units", StringList (UNIQUE_UNITS file))].

(** [chatbot_page]: the chat page. *)
Definition chatbot_page : pystr :=
  render_template (of_ascii "chatbot.html") [].
End Pages.

(** ** More vocabulary *)

Section MoreVocabulary.
Context (num : Type) {Hnum : Numeric num}.

(** The keys of the rows that have one, in row order. *)
Definition row_keys (rs : list (Row num)) : list key :=
  flat_map (fun r => match key_of r with Some k => [k] | None => [] end) rs.

(** No row of the frame survives the cleaning. *)
Definition no_survivor (df : DataFrame num) : Prop :=
  forall r, In r (rows df) -> survives r = false.

(** The required labels the schema lacks, in the order of [REQUIRED]. *)
Definition missing_columns (df : DataFrame num) : list pystr :=
  filter (fun c => negb (mem c (columns df))) REQUIRED.

(** The calls to the remote service among the events. *)
Definition dispatches (events : list Event) : list Event :=
  filter is_dispatched events.
End MoreVocabulary.

Definition GEMINI_MODEL : pystr := of_ascii "gemini-2.5-flash".
Definition SORRY : pystr :=
  of_ascii "Sorry, there was an error processing your request: ".

(** The value is a [dict]. *)
Definition is_dict (v : pyval) : bool :=
  match v with
  | PyDict _ => true
  | _ => false
  end.

(** The rice rows in the other order. *)
Definition rice_table_swapped : DataFrame float :=
  {| columns := all_columns;
     rows := [row_of "Rice" 7 "KL" "kg"; row_of "Rice" 5 "KL" "kg"] |}.

(** A row of another group. *)
Definition sugar_row : Row float := row_of "Sugar" 3 "KL" "kg".

(** A request with the question [text]. *)
Definition question (text : string) : exn + pyval :=
  inr (PyDict [(of_ascii "prompt", PyStr (of_ascii text))]).

Definition sample_client : Client := {| api_key := of_ascii "key" |}.

(** A reasoning service that always raises. *)
Definition failing_service (client : Client) (model contents system_instruction : pystr)
    : exn + pystr := inl (OtherException (of_ascii "quota")).

(** * Properties *)

(** ** The order of strings and keys *)

Section CmpFacts.
Context {A : Type} {CA : Cmp A} {LA : CmpLaws A}.

Lemma cmp_refl (a : A) : cmp a a = Eq.
Proof. now apply cmp_eq. Qed.

Lemma cmp_gt_lt (a b : A) : cmp a b = Gt <-> cmp b a = Lt.
Proof.
  rewrite (cmp_antisym a b). destruct (cmp a b); simpl; split; congruence.
Qed.

Lemma eqb_eq (a b : A) : eqb a b = true <-> a = b.
Proof.
  unfold eqb. rewrite <- cmp_eq. destruct (cmp a b); split; congruence.
Qed.

Lemma eqb_refl (a : A) : eqb a a = true.
Proof. now apply eqb_eq. Qed.

Lemma eqb_neq (a b : A) : eqb a b = false <-> a <> b.
Proof.
  rewrite <- eqb_eq. destruct (eqb a b); split; congruence.
Qed.

Lemma clt_irrefl (a : A) : ~ clt a a.
Proof. unfold clt. rewrite cmp_refl. discriminate. Qed.

Lemma clt_trans (a b c : A) : clt a b -> clt b c -> clt a c.
Proof. apply cmp_trans. Qed.

Lemma clt_cle (a b : A) : clt a b -> cle a b.
Proof. unfold clt, cle. congruence. Qed.

Lemma list_cmp_eq (l1 l2 : list A) : list_cmp l1 l2 = Eq <-> l1 = l2.
Proof.
  revert l2. induction l1 as [|a l1 IH]; intros [|b l2]; simpl;
    try (split; congruence).
  destruct (cmp a b) eqn:E.
  - apply cmp_eq in E. subst b. rewrite IH. split; congruence.
  - split; [discriminate|]. intros [= -> _]. rewrite cmp_refl in E. discriminate.
  - split; [discriminate|]. intros [= -> _]. rewrite cmp_refl in E. discriminate.
Qed.

Lemma list_cmp_antisym (l1 l2 : list A) :
  list_cmp l2 l1 = CompOpp (list_cmp l1 l2).
Proof.
  revert l2. induction l1 as [|a l1 IH]; intros [|b l2]; simpl; trivial.
  rewrite (cmp_antisym a b). destruct (cmp a b); simpl; auto.
Qed.

Lemma list_cmp_trans (l1 l2 l3 : list A) :
  list_cmp l1 l2 = Lt -> list_cmp l2 l3 = Lt -> list_cmp l1 l3 = Lt.
Proof.
  revert l2 l3.
  induction l1 as [|a l1 IH]; intros [|b l2] [|c l3]; simpl;
    try congruence.
  destruct (cmp a b) eqn:Eab; try discriminate;
    destruct (cmp b c) eqn:Ebc; try discriminate; intros H1 H2.
  - apply cmp_eq in Eab, Ebc. subst. rewrite cmp_refl. eauto.
  - apply cmp_eq in Eab. subst. now rewrite Ebc.
  - apply cmp_eq in Ebc. subst. now rewrite Eab.
  - now rewrite (cmp_trans _ _ _ Eab Ebc).
Qed.
End CmpFacts.

Section PairCmpFacts.
Context {A B : Type} {CA : Cmp A} {LA : CmpLaws A} {CB : Cmp B} {LB : CmpLaws B}.

Lemma pair_cmp_eq (p q : A * B) : pair_cmp p q = Eq <-> p = q.
Proof.
  destruct p as [a b], q as [a' b']. unfold pair_cmp. simpl.
  destruct (cmp a a') eqn:E.
  - apply cmp_eq in E. subst. rewrite cmp_eq. split; congruence.
  - split; [discriminate|]. intros [= -> _]. rewrite cmp_refl in E. discriminate.
  - split; [discriminate|]. intros [= -> _]. rewrite cmp_refl in E. discriminate.
Qed.

Lemma pair_cmp_antisym (p q : A * B) : pair_cmp q p = CompOpp (pair_cmp p q).
Proof.
  destruct p as [a b], q as [a' b']. unfold pair_cmp. simpl.
  rewrite (cmp_antisym a a'). destruct (cmp a a'); simpl; trivial.
  apply cmp_antisym.
Qed.

Lemma pair_cmp_trans (p q r : A * B) :
  pair_cmp p q = Lt -> pair_cmp q r = Lt -> pair_cmp p r = Lt.
Proof.
  destruct p as [a b], q as [a' b'], r as [a'' b'']. unfold pair_cmp. simpl.
  destruct (cmp a a') eqn:E1; try discriminate;
    destruct (cmp a' a'') eqn:E2; try discriminate; intros H1 H2.
  - apply cmp_eq in E1, E2. subst. rewrite cmp_refl. eauto using cmp_trans.
  - apply cmp_eq in E1. subst. now rewrite E2.
  - apply cmp_eq in E2. subst. now rewrite E1.
  - now rewrite (cmp_trans _ _ _ E1 E2).
Qed.
End PairCmpFacts.

#[export] Instance CmpLaws_N : CmpLaws N.
Proof.
  split.
  - apply N.compare_eq_iff.
  - intros a b. apply N.compare_antisym.
  - intros a b c. simpl. rewrite !N.compare_lt_iff. apply N.lt_trans.
Qed.

#[export] Instance CmpLaws_list {A} {CA : Cmp A} {LA : CmpLaws A} : CmpLaws (list A).
Proof.
  split; [apply list_cmp_eq | apply list_cmp_antisym | apply list_cmp_trans].
Qed.

#[export] Instance CmpLaws_pair {A B} {CA : Cmp A} {LA : CmpLaws A}
    {CB : Cmp B} {LB : CmpLaws B} : CmpLaws (A * B).
Proof.
  split; [apply pair_cmp_eq | apply pair_cmp_antisym | apply pair_cmp_trans].
Qed.

(** ** Stripping *)

Lemma lstrip_head (s : pystr) :
  lstrip s = [] \/ exists c t, lstrip s = c :: t /\ isspace c = false.
Proof.
  induction s as [|c s IH]; simpl; [now left|].
  destruct (isspace c) eqn:E; [exact IH|].
  right. now exists c, s.
Qed.

Lemma lstrip_nil_iff (s : pystr) : lstrip s = [] <-> blank s = true.
Proof.
  unfold blank.
  induction s as [|c s IH]; simpl; [tauto|].
  destruct (isspace c); simpl; [exact IH|].
  split; discriminate.
Qed.

Lemma blank_rev (s : pystr) : blank (rev s) = blank s.
Proof.
  unfold blank. induction s as [|c s IH]; simpl; trivial.
  rewrite forallb_app, IH. simpl. rewrite andb_true_r. apply andb_comm.
Qed.

(** [s.strip() == ''] exactly when [s] is empty or whitespace only. *)
Lemma strip_nil_iff (s : pystr) : strip s = [] <-> blank s = true.
Proof.
  unfold strip, rstrip. split.
  - intros Hs.
    assert (Hl : lstrip (rev (lstrip s)) = []).
    { destruct (lstrip (rev (lstrip s))) as [|c t]; [trivial|].
      simpl in Hs. apply app_eq_nil in Hs. destruct Hs as [_ Hs]. discriminate. }
    apply lstrip_nil_iff in Hl. rewrite blank_rev in Hl.
    destruct (lstrip_head s) as [Hn | (c & t & Hc & Hsp)].
    + now apply lstrip_nil_iff.
    + rewrite Hc in Hl. unfold blank in Hl. simpl in Hl.
      rewrite Hsp in Hl. discriminate.
  - intros Hb. apply lstrip_nil_iff in Hb. now rewrite Hb.
Qed.

(** ** [sorted] and [unique] *)

Section BuiltinFacts.
Context {A : Type} {CA : Cmp A} {LA : CmpLaws A}.

Lemma mem_In (x : A) (l : list A) : mem x l = true <-> In x l.
Proof.
  unfold mem. rewrite existsb_exists. split.
  - intros (y & Hy & He). apply eqb_eq in He. now subst.
  - intros Hx. exists x. split; [trivial | apply eqb_refl].
Qed.

Lemma In_insert_sorted (x y : A) (l : list A) :
  In y (insert_sorted x l) <-> y = x \/ In y l.
Proof.
  induction l as [|z l IH]; simpl.
  - intuition.
  - destruct (cmp x z); simpl; rewrite ?IH; intuition.
Qed.

Lemma insert_sorted_strict (x : A) (l : list A) :
  StronglySorted clt l -> ~ In x l -> StronglySorted clt (insert_sorted x l).
Proof.
  induction 1 as [|z l Hs IH Hall]; intros Hx; simpl.
  - repeat constructor.
  - destruct (cmp x z) eqn:E.
    + apply cmp_eq in E. subst. exfalso. apply Hx. now left.
    + constructor; [now constructor|].
      constructor; [exact E|].
      rewrite Forall_forall in *. intros w Hw.
      exact (clt_trans E (Hall w Hw)).
    + apply cmp_gt_lt in E. constructor.
      * apply IH. intros Hin. apply Hx. now right.
      * rewrite Forall_forall in *. intros w Hw.
        apply In_insert_sorted in Hw. destruct Hw as [-> | Hw]; auto.
Qed.

Lemma sorted_from_strict (l acc : list A) :
  StronglySorted clt acc -> NoDup l -> (forall x, In x l -> ~ In x acc) ->
  StronglySorted clt (fold_left (fun a x => insert_sorted x a) l acc).
Proof.
  revert acc. induction l as [|x l IH]; intros acc Hs Hnd Hdis; simpl; trivial.
  inversion Hnd as [|? ? Hx Hnd']; subst.
  apply IH; trivial.
  - apply insert_sorted_strict; trivial. apply Hdis. now left.
  - intros y Hy Hin. apply In_insert_sorted in Hin. destruct Hin as [-> | Hin].
    + contradiction.
    + apply (Hdis y); [now right | trivial].
Qed.

Lemma In_sorted_from (y : A) (l acc : list A) :
  In y (fold_left (fun a x => insert_sorted x a) l acc) <-> In y l \/ In y acc.
Proof.
  revert acc. induction l as [|x l IH]; intros acc; simpl.
  - intuition.
  - rewrite IH, In_insert_sorted. intuition.
Qed.

Lemma In_sorted (y : A) (l : list A) : In y (sorted l) <-> In y l.
Proof. unfold sorted. rewrite In_sorted_from. simpl. intuition. Qed.

Lemma In_unique_from (y : A) (seen l : list A) :
  In y (unique_from seen l) <-> In y l /\ ~ In y seen.
Proof.
  revert seen. induction l as [|x l IH]; intros seen; simpl.
  - intuition.
  - destruct (mem x seen) eqn:E.
    + apply mem_In in E. rewrite IH. intuition. subst. contradiction.
    + assert (Hx : ~ In x seen) by (rewrite <- mem_In, E; discriminate).
      simpl. rewrite IH. simpl.
      destruct (cmp_eq x y) as [_ Hxy].
      destruct (cmp x y) eqn:Ec.
      * apply cmp_eq in Ec. subst. intuition.
      * assert (x <> y) by (intros ->; rewrite cmp_refl in Ec; discriminate).
        intuition.
      * assert (x <> y) by (intros ->; rewrite cmp_refl in Ec; discriminate).
        intuition.
Qed.

Lemma NoDup_unique_from (seen l : list A) : NoDup (unique_from seen l).
Proof.
  revert seen. induction l as [|x l IH]; intros seen; simpl.
  - constructor.
  - destruct (mem x seen); [apply IH|].
    constructor; [|apply IH].
    rewrite In_unique_from. simpl. intuition.
Qed.

Lemma In_unique (y : A) (l : list A) : In y (unique l) <-> In y l.
Proof. unfold unique. rewrite In_unique_from. simpl. intuition. Qed.

(** [sorted(... .unique())] is strictly increasing. *)
Lemma sorted_unique_strict (l : list A) : StronglySorted clt (sorted (unique l)).
Proof.
  unfold sorted. apply sorted_from_strict.
  - constructor.
  - apply NoDup_unique_from.
  - intros x _ [].
Qed.

Lemma strict_sorted_le (l : list A) : StronglySorted clt l -> StronglySorted cle l.
Proof.
  induction 1 as [|x l Hs IH Hall]; constructor; trivial.
  eapply Forall_impl; [|exact Hall]. intros y. apply clt_cle.
Qed.

Lemma strict_sorted_NoDup (l : list A) : StronglySorted clt l -> NoDup l.
Proof.
  induction 1 as [|x l Hs IH Hall]; constructor; trivial.
  intros Hin. rewrite Forall_forall in Hall.
  exact (clt_irrefl (Hall x Hin)).
Qed.
End BuiltinFacts.

(** ** The cleaning stage *)

#[local] Arguments cmp : simpl never.
#[local] Arguments eqb : simpl never.

Lemma filter_negb_nil {A} (f : A -> bool) (l : list A) :
  filter (fun x => negb (f x)) l = [] <-> forallb f l = true.
Proof.
  induction l as [|x l IH]; simpl; [tauto|].
  destruct (f x); simpl; [exact IH|]. split; discriminate.
Qed.

Lemma filter_andb {A} (f g : A -> bool) (l : list A) :
  filter g (filter f l) = filter (fun x => f x && g x) l.
Proof.
  induction l as [|x l IH]; simpl; trivial.
  destruct (f x); simpl; [|exact IH].
  destruct (g x); now rewrite IH.
Qed.

Lemma eqb_nil_blank (s : pystr) : eqb (strip s) [] = blank s.
Proof.
  destruct (blank s) eqn:E.
  - apply eqb_eq. now apply strip_nil_iff.
  - apply eqb_neq. rewrite strip_nil_iff, E. discriminate.
Qed.

Section CleaningFacts.
Context (num : Type) {Hnum : Numeric num}.

Lemma isna_complete (r : Row num) :
  negb (existsb (isna r) REQUIRED) = complete r.
Proof.
  destruct r as [[n|] [p|] [l|] [u|]]; reflexivity.
Qed.

(** [dropna] on the required fields: [KeyError] when the schema lacks
    one, the complete rows otherwise. *)
Lemma dropna_required (df : DataFrame num) :
  dropna REQUIRED df =
  if has_columns df then
    inr {| columns := columns df; rows := filter (@complete num) (rows df) |}
  else
    inl (KeyError (filter (fun c => negb (mem c (columns df))) REQUIRED)).
Proof.
  unfold dropna, has_columns.
  destruct (filter (fun c => negb (mem c (columns df))) REQUIRED) as [|c cs] eqn:E.
  - apply filter_negb_nil in E. rewrite E. f_equal. f_equal.
    apply filter_ext. intros r. apply isna_complete.
  - destruct (forallb (fun c => mem c (columns df)) REQUIRED) eqn:F; trivial.
    apply filter_negb_nil in F. rewrite F in E. discriminate.
Qed.

Lemma survives_name (r : Row num) :
  complete r = true ->
  negb (eqb (strip (astype_str (subsubcategory r))) []) = negb (blank_name r).
Proof.
  unfold complete, blank_name. destruct (subsubcategory r) as [s|]; [|discriminate].
  intros _. simpl. now rewrite eqb_nil_blank.
Qed.

(** The cleaning keeps exactly the surviving rows, in order. *)
Lemma cleaned_spec (df : DataFrame num) :
  cleaned df =
  if has_columns df then
    inr {| columns := columns df; rows := filter (@survives num) (rows df) |}
  else
    inl (KeyError (filter (fun c => negb (mem c (columns df))) REQUIRED)).
Proof.
  unfold cleaned. rewrite dropna_required.
  destruct (has_columns df); simpl; trivial.
  unfold drop_blank_names. simpl. f_equal. f_equal.
  rewrite filter_andb. apply filter_ext_in.
  intros r _. unfold survives.
  destruct (complete r) eqn:C; simpl; trivial.
  now apply survives_name.
Qed.

(** The loader is the cleaning followed by the aggregation. *)
Lemma load_item_data_try_eq (file : ParquetFile num) :
  load_item_data_try file =
  (df <- read_parquet file ;;
   df <- cleaned df ;;
   inr (aggregate df,
        sorted (unique (map (@item_location num) (aggregate df))),
        sorted (unique (map (@item_unit num) (aggregate df))))).
Proof.
  unfold load_item_data_try, cleaned.
  destruct (read_parquet file) as [e|df]; simpl; trivial.
  destruct (dropna _ df) as [e|df']; reflexivity.
Qed.

(** A surviving row has all its fields, and a name that is not blank. *)
Lemma survives_fields (r : Row num) :
  survives r = true ->
  exists n p l u,
    subsubcategory r = Some n /\ avg_price r = Some p /\
    location r = Some l /\ unit_raw r = Some u /\ blank n = false.
Proof.
  unfold survives, complete, blank_name.
  destruct r as [[n|] [p|] [l|] [u|]]; simpl; try discriminate.
  intros Hb. exists n, p, l, u. repeat split; trivial.
  now destruct (blank n).
Qed.

Lemma not_survives (r : Row num) :
  complete r = false \/ blank_name r = true -> survives r = false.
Proof.
  unfold survives. intros [-> | ->]; simpl; trivial. apply andb_false_r.
Qed.
End CleaningFacts.

(** ** Grouping *)

Section GroupingFacts.
Context (num : Type) {Hnum : Numeric num}.

Lemma insert_row_keys (k k' : key) (p : option num) (g : Groups num) :
  In k' (map fst (insert_row k p g)) <-> k' = k \/ In k' (map fst g).
Proof.
  induction g as [|[k0 ps] g IH]; simpl.
  - intuition.
  - destruct (cmp k k0) eqn:E; simpl.
    + apply cmp_eq in E. subst k0. intuition.
    + intuition.
    + rewrite IH. intuition.
Qed.

(** Joining a group keeps the keys strictly increasing. *)
Lemma insert_row_sorted (k : key) (p : option num) (g : Groups num) :
  StronglySorted clt (map fst g) ->
  StronglySorted clt (map fst (insert_row k p g)).
Proof.
  induction g as [|[k0 ps] g IH]; simpl; intros Hs.
  - repeat constructor.
  - inversion Hs as [|? ? Hs' Hall]; subst.
    destruct (cmp k k0) eqn:E; simpl.
    + now constructor.
    + constructor; [now constructor|].
      constructor; [exact E|].
      rewrite Forall_forall in *. intros w Hw.
      exact (clt_trans E (Hall w Hw)).
    + apply cmp_gt_lt in E. constructor; [now apply IH|].
      rewrite Forall_forall in *. intros w Hw.
      apply insert_row_keys in Hw. destruct Hw as [-> | Hw]; auto.
Qed.

Lemma values_of_absent (k : key) (g : Groups num) :
  ~ In k (map fst g) -> values_of k g = [].
Proof.
  induction g as [|[k0 ps] g IH]; simpl; intros Hk; trivial.
  destruct (eqb k k0) eqn:E.
  - apply eqb_eq in E. subst. exfalso. apply Hk. now left.
  - apply IH. intros Hin. apply Hk. now right.
Qed.

Lemma values_of_In (k : key) (ps : list (option num)) (g : Groups num) :
  NoDup (map fst g) -> In (k, ps) g -> values_of k g = ps.
Proof.
  induction g as [|[k0 ps0] g IH]; simpl; intros Hnd Hin; [contradiction|].
  inversion Hnd as [|? ? Hk0 Hnd']; subst.
  destruct Hin as [[= -> ->] | Hin].
  - now rewrite eqb_refl.
  - destruct (eqb k k0) eqn:E; [|now apply IH].
    apply eqb_eq in E. subst. exfalso. apply Hk0.
    apply in_map_iff. now exists (k0, ps).
Qed.

(** The row's value goes to the end of its own group and leaves the
    other groups as they are. *)
Lemma values_of_insert_row (k k' : key) (p : option num) (g : Groups num) :
  StronglySorted clt (map fst g) ->
  values_of k' (insert_row k p g) =
  if eqb k' k then values_of k g ++ [p] else values_of k' g.
Proof.
  induction g as [|[k0 ps] g IH]; simpl; intros Hs.
  - now destruct (eqb k' k).
  - inversion Hs as [|? ? Hs' Hall]; subst.
    destruct (cmp k k0) eqn:E; simpl.
    + apply cmp_eq in E. subst k0. rewrite eqb_refl.
      now destruct (eqb k' k).
    + assert (Hne : eqb k k0 = false).
      { apply eqb_neq. intros ->. now apply (clt_irrefl E). }
      rewrite Hne. rewrite (values_of_absent k g); [now destruct (eqb k' k)|].
      intros Hin. rewrite Forall_forall in Hall.
      exact (clt_irrefl (clt_trans E (Hall k Hin))).
    + assert (Hne : eqb k k0 = false).
      { apply eqb_neq. intros ->. rewrite cmp_refl in E. discriminate. }
      rewrite Hne, (IH Hs').
      destruct (eqb k' k0) eqn:E0; trivial.
      apply eqb_eq in E0. subst k0.
      destruct (eqb k' k) eqn:E1; trivial.
      apply eqb_eq in E1. subst. rewrite eqb_refl in Hne. discriminate.
Qed.

Lemma has_key_iff (k : key) (r : Row num) :
  has_key k r = true <-> key_of r = Some k.
Proof.
  unfold has_key. destruct (key_of r) as [k'|].
  - rewrite eqb_eq. split; congruence.
  - split; discriminate.
Qed.

(** [groupby]: the keys are strictly increasing, they are the keys of
    the rows, and each group holds the prices of the rows with its key,
    in row order. *)
Lemma groupby_spec (cols : list pystr) (rs : list (Row num)) :
  let g := groupby {| columns := cols; rows := rs |} in
  StronglySorted clt (map fst g) /\
  (forall k, In k (map fst g) <-> exists r, In r rs /\ key_of r = Some k) /\
  (forall k, values_of k g = map (@avg_price num) (filter (has_key k) rs)).
Proof.
  unfold groupby. simpl.
  induction rs as [|r rs IH] using rev_ind; simpl.
  - split; [constructor|]. split; [|reflexivity].
    intros k. split; [intros [] | intros (r & [] & _)].
  - rewrite fold_left_app. simpl.
    destruct IH as (Hs & Hk & Hv).
    destruct (key_of r) as [kr|] eqn:Er.
    + split; [now apply insert_row_sorted|]. split.
      * intros k. rewrite insert_row_keys, Hk. split.
        -- intros [-> | (r' & Hr' & Hkr')].
           ++ exists r. split; [apply in_or_app; right; now left | trivial].
           ++ exists r'. split; [apply in_or_app; now left | trivial].
        -- intros (r' & Hr' & Hkr'). apply in_app_or in Hr'.
           destruct Hr' as [Hr' | [<- | []]].
           ++ right. now exists r'.
           ++ left. congruence.
      * intros k. rewrite values_of_insert_row by exact Hs.
        rewrite filter_app, map_app, !Hv. simpl.
        assert (Hr : has_key k r = eqb kr k) by (unfold has_key; now rewrite Er).
        rewrite Hr.
        destruct (eqb k kr) eqn:E.
        -- apply eqb_eq in E. subst. now rewrite eqb_refl.
        -- assert (E' : eqb kr k = false).
           { apply eqb_neq. apply eqb_neq in E. congruence. }
           rewrite E'. simpl. now rewrite app_nil_r.
    + split; [exact Hs|]. split.
      * intros k. rewrite Hk. split.
        -- intros (r' & Hr' & Hkr'). exists r'.
           split; [apply in_or_app; now left | trivial].
        -- intros (r' & Hr' & Hkr'). apply in_app_or in Hr'.
           destruct Hr' as [Hr' | [<- | []]]; [now exists r' | congruence].
      * intros k. rewrite filter_app, map_app, Hv. simpl.
        assert (Hr : has_key k r = false) by (unfold has_key; now rewrite Er).
        rewrite Hr. simpl. now rewrite app_nil_r.
Qed.

(** The keys of the aggregated records are the keys of the groups. *)
Lemma aggregate_keys (df : DataFrame num) :
  map (@item_key num) (aggregate df) = map fst (groupby df).
Proof.
  unfold aggregate, round_price, mean_reset_index.
  rewrite !map_map. apply map_ext.
  intros [[[l u] n] ps]. reflexivity.
Qed.

Lemma aggregate_In (df : DataFrame num) (it : Item num) :
  In it (aggregate df) ->
  exists ps, In (item_key it, ps) (groupby df) /\
             item_price it = round (mean (notna ps)) 2.
Proof.
  unfold aggregate, round_price, mean_reset_index.
  rewrite map_map, in_map_iff.
  intros ([[[l u] n] ps] & <- & Hin). exists ps. now split.
Qed.

Lemma aggregate_sorted (df : DataFrame num) :
  StronglySorted clt (map (@item_key num) (aggregate df)).
Proof.
  rewrite aggregate_keys. destruct df as [cols rs].
  apply (groupby_spec cols rs).
Qed.

(** The price of an aggregated record, from the rows of the frame. *)
Lemma aggregate_price (df : DataFrame num) (it : Item num) :
  In it (aggregate df) ->
  item_price it =
  round (mean (prices (filter (has_key (item_key it)) (rows df)))) 2.
Proof.
  intros Hin. destruct (aggregate_In df it Hin) as (ps & Hps & ->).
  destruct df as [cols rs].
  destruct (groupby_spec cols rs) as (Hs & _ & Hv).
  apply strict_sorted_NoDup in Hs.
  rewrite <- (values_of_In _ _ _ Hs Hps), Hv. reflexivity.
Qed.

(** Every aggregated record has a row of the frame with its key. *)
Lemma aggregate_has_row (df : DataFrame num) (it : Item num) :
  In it (aggregate df) ->
  exists r, In r (rows df) /\ key_of r = Some (item_key it).
Proof.
  intros Hin. destruct df as [cols rs].
  apply (groupby_spec cols rs). rewrite <- aggregate_keys.
  now apply in_map.
Qed.

End GroupingFacts.

(** ** The loader *)

Section LoaderFacts.
Context (num : Type) {Hnum : Numeric num}.

(** What the loader returns for a table. *)
Lemma loaded_table (df : DataFrame num) :
  loaded (Table df) =
  if has_columns df then
    (aggregate (surviving df),
     sorted (unique (map (@item_location num) (aggregate (surviving df)))),
     sorted (unique (map (@item_unit num) (aggregate (surviving df)))))
  else ([], [], []).
Proof.
  unfold loaded, load_item_data. rewrite load_item_data_try_eq. simpl.
  rewrite cleaned_spec. now destruct (has_columns df).
Qed.

(** In every case the loader returns the aggregation of some frame with
    its two category lists. *)
Lemma loaded_shape (file : ParquetFile num) :
  exists df,
    loaded file =
    (aggregate df,
     sorted (unique (map (@item_location num) (aggregate df))),
     sorted (unique (map (@item_unit num) (aggregate df)))).
Proof.
  destruct file as [| e | df].
  - now exists {| columns := []; rows := [] |}.
  - exists {| columns := []; rows := [] |}. now destruct e.
  - rewrite loaded_table. destruct (has_columns df).
    + now exists (surviving df).
    + now exists {| columns := []; rows := [] |}.
Qed.

(** A row that does not survive the cleaning changes nothing. *)
Lemma loaded_without_row (cols : list pystr) (before after : list (Row num))
    (r : Row num) :
  survives r = false ->
  loaded (Table (with_row cols before r after)) =
  loaded (Table (without_row cols before after)).
Proof.
  intros Hr. rewrite !loaded_table.
  unfold surviving, with_row, without_row, has_columns. simpl.
  rewrite !filter_app. simpl. now rewrite Hr.
Qed.

Lemma key_cmp_unfold (l1 u1 n1 l2 u2 n2 : pystr) :
  cmp (l1, u1, n1) (l2, u2, n2) =
  match cmp l1 l2 with
  | Eq => match cmp u1 u2 with Eq => cmp n1 n2 | c => c end
  | c => c
  end.
Proof.
  change (cmp (l1, u1, n1) (l2, u2, n2))
    with (match pair_cmp (l1, u1) (l2, u2) with Eq => cmp n1 n2 | c => c end).
  unfold pair_cmp. simpl.
  destruct (cmp l1 l2); trivial.
Qed.

Lemma key_before_iff (k1 k2 : key) : clt k1 k2 <-> key_before k1 k2.
Proof.
  destruct k1 as [[l1 u1] n1], k2 as [[l2 u2] n2].
  unfold key_before, clt at 1. rewrite key_cmp_unfold.
  destruct (cmp l1 l2) eqn:El.
  - apply cmp_eq in El. subst l2.
    destruct (cmp u1 u2) eqn:Eu.
    + apply cmp_eq in Eu. subst u2. split.
      * intros Hn. right. split; trivial. right. now split.
      * intros [Hl | [_ [Hu | [_ Hn]]]]; trivial.
        -- now apply clt_irrefl in Hl.
        -- now apply clt_irrefl in Hu.
    + split; [intros _; right; split; trivial; now left | trivial].
    + split; [discriminate|].
      intros [Hl | [_ [Hu | [-> _]]]].
      * now apply clt_irrefl in Hl.
      * unfold clt in Hu. congruence.
      * rewrite cmp_refl in Eu. discriminate.
  - split; [intros _; now left | trivial].
  - split; [discriminate|].
    intros [Hl | [-> _]].
    + unfold clt in Hl. congruence.
    + rewrite cmp_refl in El. discriminate.
Qed.

Lemma StronglySorted_impl {A} (R S : A -> A -> Prop) (l : list A) :
  (forall a b, R a b -> S a b) -> StronglySorted R l -> StronglySorted S l.
Proof.
  intros HRS. induction 1 as [|x l Hs IH Hall]; constructor; trivial.
  eapply Forall_impl; [|exact Hall]. intros y. apply HRS.
Qed.
End LoaderFacts.

Lemma PI_DATA_loaded (num : Type) {Hnum : Numeric num} (file : ParquetFile num) :
  loaded file = (PI_DATA file, UNIQUE_LOCATIONS file, UNIQUE_UNITS file).
Proof.
  unfold loaded, PI_DATA, UNIQUE_LOCATIONS, UNIQUE_UNITS.
  now destruct (snd (load_item_data file)) as [[items locs] units].
Qed.

(** What the loader's three results are, in every case. *)
Lemma load_results (num : Type) {Hnum : Numeric num} (file : ParquetFile num) :
  exists df,
    PI_DATA file = aggregate df /\
    UNIQUE_LOCATIONS file = sorted (unique (map (@item_location num) (PI_DATA file))) /\
    UNIQUE_UNITS file = sorted (unique (map (@item_unit num) (PI_DATA file))).
Proof.
  destruct (loaded_shape file) as (df & Hl).
  rewrite PI_DATA_loaded in Hl. injection Hl as H1 H2 H3.
  exists df. rewrite H2, H3, H1. auto.
Qed.

(** C1: whatever is at the source path, no two records of the
    aggregated collection the loader returns have the same
    [(location, unit, name)] key. *)
Theorem aggregated_keys_unique (num : Type) (Hnum : Numeric num)
    (file : ParquetFile num) :
  NoDup (map (@item_key num) (PI_DATA file)).
Proof.
  destruct (load_results file) as (df & -> & _).
  apply strict_sorted_NoDup, aggregate_sorted.
Qed.

(** C9: the aggregated records come in strictly ascending lexicographic
    order of their [(location, unit, name)] key. *)
Theorem aggregated_records_sorted (num : Type) (Hnum : Numeric num)
    (file : ParquetFile num) :
  StronglySorted key_before (map (@item_key num) (PI_DATA file)).
Proof.
  destruct (load_results file) as (df & -> & _).
  apply StronglySorted_impl with (R := clt).
  - intros a b. apply key_before_iff.
  - apply aggregate_sorted.
Qed.

(** C5: the locations list and the units list are each ascending in the
    ordering of strings, without duplicates, and hold exactly the
    locations (units) of the aggregated records. *)
Theorem category_lists_sorted_distinct (num : Type) (Hnum : Numeric num)
    (file : ParquetFile num) :
  (StronglySorted cle (UNIQUE_LOCATIONS file) /\
   NoDup (UNIQUE_LOCATIONS file) /\
   forall s, In s (UNIQUE_LOCATIONS file) <->
             exists it, In it (PI_DATA file) /\ item_location it = s) /\
  (StronglySorted cle (UNIQUE_UNITS file) /\
   NoDup (UNIQUE_UNITS file) /\
   forall s, In s (UNIQUE_UNITS file) <->
             exists it, In it (PI_DATA file) /\ item_unit it = s).
Proof.
  destruct (load_results file) as (df & _ & -> & ->).
  split; (split; [apply strict_sorted_le, sorted_unique_strict|]);
    (split; [apply strict_sorted_NoDup, sorted_unique_strict|]);
    intros s; rewrite In_sorted, In_unique, in_map_iff;
    split; intros (it & H1 & H2); exists it; auto.
Qed.




(** The two operations on sample values: a tie goes to the even
    neighbour, the product by 100 is rounded before [rint] sees it (0.015
    becomes 0.02), a small addend is absorbed and a large sum overflows. *)
Set Warnings "-inexact-float".
Lemma np_round_samples :
  np_round 0.125 2 = 0.12%float /\ np_round 0.375 2 = 0.38%float /\
  np_round 0.015 2 = 0.02%float /\ np_round 2.675 2 = 2.68%float /\
  np_round (-0.125) 2 = (-0.12)%float /\ np_round 1e307 2 = infinity.
Proof. repeat split; reflexivity. Qed.

Lemma group_mean_samples :
  group_mean [5; 7]%float = 6%float /\
  group_mean [0.1; 0.2; 0.3]%float = 0.19999999999999998%float /\
  group_mean [1e16; 1]%float = 5e15%float /\
  group_mean [huge; huge] = infinity.
Proof. repeat split; reflexivity. Qed.
Set Warnings "inexact-float".




(** C3, as stated, fails: a row whose location is the empty string has a
    blank required field, and yet it yields a record, a location and a
    unit. *)
Lemma blank_location_row_contributes :
  blank_field blank_location_row = true /\
  ~ contributes_nothing all_columns [] blank_location_row [] /\
  loaded (Table (with_row all_columns [] blank_location_row [])) =
  ([{| item_location := []; item_unit := of_ascii "kg";
       item_name := of_ascii "Rice"; item_price := 5%float |}],
   [[]], [of_ascii "kg"]).
Proof.
  split; [reflexivity|]. split; [|reflexivity].
  unfold contributes_nothing. intros H. vm_compute in H. discriminate.
Qed.

(** C3, amended: a row in which a required field is missing, or whose
    item name is an empty or whitespace-only string, contributes nothing
    to what the loader returns. *)
Theorem incomplete_or_blank_name_contributes_nothing (num : Type)
    (Hnum : Numeric num) (cols : list pystr) (before : list (Row num))
    (r : Row num) (after : list (Row num)) :
  complete r = false \/ blank_name r = true ->
  contributes_nothing cols before r after.
Proof.
  intros Hr. apply loaded_without_row. now apply not_survives.
Qed.

Lemma incomplete_or_blank_name_contributes_nothing_sample :
  complete missing_price_row = false /\
  contributes_nothing all_columns (rows rice_table) missing_price_row [].
Proof.
  split; [reflexivity|].
  apply (@incomplete_or_blank_name_contributes_nothing float Numeric_float).
  left. reflexivity.
Defined.

(** C4: a row in which a required field is null, or whose item name
    trims to the empty string, is dropped before grouping: the frame that
    reaches [groupby] is the one of the table without the row, the row is
    not in it, and the aggregated records are the same. *)
Theorem null_or_blank_name_dropped_before_grouping (num : Type)
    (Hnum : Numeric num) (cols : list pystr) (before : list (Row num))
    (r : Row num) (after : list (Row num)) :
  complete r = false \/ (exists s, subsubcategory r = Some s /\ strip s = []) ->
  cleaned (with_row cols before r after) = cleaned (without_row cols before after) /\
  (forall df, cleaned (with_row cols before r after) = inr df -> ~ In r (rows df)) /\
  PI_DATA (Table (with_row cols before r after)) =
  PI_DATA (Table (without_row cols before after)).
Proof.
  intros Hr.
  assert (Hs : survives r = false).
  { apply not_survives. destruct Hr as [Hc | (s & Hn & Hs)]; [now left | right].
    unfold blank_name. rewrite Hn. simpl. now apply strip_nil_iff. }
  split; [|split].
  - rewrite !cleaned_spec. unfold with_row, without_row, has_columns. simpl.
    rewrite !filter_app. simpl. now rewrite Hs.
  - intros df. rewrite cleaned_spec.
    destruct (has_columns _); [|discriminate].
    intros [= <-]. simpl. rewrite filter_In. intros [_ Hr']. congruence.
  - assert (Hl := loaded_without_row cols before after r Hs).
    rewrite !PI_DATA_loaded in Hl. congruence.
Qed.

Lemma null_or_blank_name_dropped_sample :
  strip (of_ascii "  ") = [] /\
  cleaned (with_row all_columns (rows rice_table) blank_name_row []) =
  cleaned (without_row all_columns (rows rice_table) []).
Proof.
  split; [reflexivity|].
  apply (@null_or_blank_name_dropped_before_grouping float Numeric_float).
  right. exists (of_ascii "  "). split; reflexivity.
Defined.

(** C6: a source that is absent, unreadable, or a table without a
    required column makes the body of the [try] raise; and whenever that
    body raises, the loader returns the three empty collections. *)
Theorem failing_source_gives_empty (num : Type) (Hnum : Numeric num)
    (file : ParquetFile num) :
  (failing_source file -> exists e, load_item_data_try file = inl e) /\
  (forall e, load_item_data_try file = inl e ->
             exists line, load_item_data file = (line, ([], [], []))).
Proof.
  split.
  - destruct file as [| msg | df]; simpl; intros Hf.
    + now exists FileNotFoundError.
    + now exists msg.
    + rewrite load_item_data_try_eq. simpl. rewrite cleaned_spec, Hf. simpl.
      eexists. reflexivity.
  - intros e He. unfold load_item_data. rewrite He.
    destruct e; eexists; reflexivity.
Qed.

Lemma missing_file_gives_empty :
  load_item_data (@Absent float) = (@LogNotFound, ([], [], [])) /\
  exists line, load_item_data (Table no_price_table) = (line, ([], [], [])).
Proof.
  split; [reflexivity|].
  destruct (failing_source_gives_empty Numeric_float (Table no_price_table)) as [Hf He].
  destruct (Hf eq_refl) as (e & Hr).
  exact (He e Hr).
Defined.

(** ** The chat endpoint *)

Lemma dict_get_absent (d : list (pystr * pyval)) (k : pystr) :
  has_field d k = false -> dict_get d k = PyNone.
Proof.
  unfold has_field. induction d as [|[k' v] d IH]; simpl; trivial.
  destruct (eqb k k'); simpl; [discriminate | exact IH].
Qed.

(** A missing or empty prompt is falsy. *)
Lemma missing_or_empty_falsy (d : list (pystr * pyval)) :
  prompt_missing_or_empty d = true ->
  truthy (dict_get d (of_ascii "prompt")) = false.
Proof.
  unfold prompt_missing_or_empty. intros H. apply orb_true_iff in H.
  destruct H as [H | H].
  - apply negb_true_iff in H. now rewrite (dict_get_absent _ _ H).
  - destruct (dict_get d (of_ascii "prompt")) as [| | | | [|c s] | |];
      try discriminate. reflexivity.
Qed.

Section ChatFacts.
Context (num : Type).
Variable generate_content : Client -> pystr -> pystr -> pystr -> exn + pystr.
Variable to_json : list (Item num) -> pystr.
Variable format_value : pyval -> pystr.
Variable format_exn : exn -> pystr.

Let handler := chat_api generate_content to_json format_value format_exn.

(** Without a client the handler answers before it reads the request. *)
Lemma chat_api_no_client (data : list (Item num)) (req : exn + pyval) :
  handler None data req = ([], Response NOT_INITIALIZED 500).
Proof. reflexivity. Qed.

(** With a client, an object whose prompt is falsy is refused. *)
Lemma chat_api_falsy_prompt (client : Client) (data : list (Item num))
    (d : list (pystr * pyval)) :
  truthy (dict_get d (of_ascii "prompt")) = false ->
  handler (Some client) data (inr (PyDict d)) = ([], Response NO_PROMPT 400).
Proof.
  intros H. unfold handler, chat_api. simpl. now rewrite H.
Qed.

(** A body that is not an object makes [.get] raise. *)
Lemma chat_api_not_an_object (client : Client) (data : list (Item num))
    (l : list pyval) :
  handler (Some client) data (inr (PyList l)) =
  ([], Unhandled (AttributeError (of_ascii "get"))).
Proof. reflexivity. Qed.
End ChatFacts.

(** C7, as stated, fails: while the client is not initialized, the body
    [{}], which has no [prompt], is answered 500 and not 400. *)
Lemma missing_prompt_without_client_is_500 :
  prompt_missing_or_empty [] = true /\
  snd (chat_api echo_service no_json show_value show_exn None [] (inr empty_object))
  = Response NOT_INITIALIZED 500 /\
  status_of (snd (chat_api echo_service no_json show_value show_exn None []
                    (inr empty_object))) <> Some 400.
Proof.
  split; [reflexivity|]. split; [reflexivity|]. simpl. discriminate.
Qed.

(** C7, amended: for a request whose JSON object lacks [prompt] or
    carries an empty prompt, no prompt is built and nothing is sent to
    the remote service; and when the client is initialized the answer is
    the 400 response "No prompt provided.". *)
Theorem missing_prompt_refused (num : Type)
    (generate_content : Client -> pystr -> pystr -> pystr -> exn + pystr)
    (to_json : list (Item num) -> pystr) (format_value : pyval -> pystr)
    (format_exn : exn -> pystr)
    (gemini_client : option Client) (data : list (Item num))
    (d : list (pystr * pyval)) :
  prompt_missing_or_empty d = true ->
  let result :=
    chat_api generate_content to_json format_value format_exn
      gemini_client data (inr (PyDict d)) in
  existsb is_prompt_built (fst result) = false /\
  existsb is_dispatched (fst result) = false /\
  (gemini_client <> None -> snd result = Response NO_PROMPT 400).
Proof.
  intros Hd result. subst result.
  destruct gemini_client as [client|].
  - rewrite chat_api_falsy_prompt by now apply missing_or_empty_falsy.
    simpl. auto.
  - rewrite chat_api_no_client. simpl. repeat split; trivial.
    intros H. now contradiction H.
Qed.

Lemma missing_prompt_refused_empty_object :
  snd (chat_api echo_service no_json show_value show_exn
         (Some {| api_key := of_ascii "key" |}) [] (inr empty_object))
  = Response NO_PROMPT 400.
Proof.
  refine (proj2 (proj2 (@missing_prompt_refused float echo_service no_json show_value
                          show_exn (Some {| api_key := of_ascii "key" |}) [] []
                          eq_refl)) _).
  discriminate.
Defined.

(** C8: when the construction of the client raised, every request to the
    handler is answered with the 500 response "AI Client not
    initialized..." and the handler does nothing else: no prompt, no call
    to the remote service. *)
Theorem uninitialized_client_short_circuits (num : Type)
    (generate_content : Client -> pystr -> pystr -> pystr -> exn + pystr)
    (to_json : list (Item num) -> pystr) (format_value : pyval -> pystr)
    (format_exn : exn -> pystr)
    (construction : exn + Client) (e : exn)
    (data : list (Item num)) (req : exn + pyval) :
  construction = inl e ->
  chat_api generate_content to_json format_value format_exn
    (init_gemini_client construction) data req
  = ([], Response NOT_INITIALIZED 500).
Proof.
  intros ->. apply chat_api_no_client.
Qed.

Lemma uninitialized_client_short_circuits_sample :
  chat_api echo_service no_json show_value show_exn
    (init_gemini_client (inl (OtherException (of_ascii "no api key")))) []
    (inr (PyDict [(of_ascii "prompt", PyStr (of_ascii "cheapest rice?"))]))
  = ([], Response NOT_INITIALIZED 500).
Proof.
  apply (@uninitialized_client_short_circuits float) with
    (e := OtherException (of_ascii "no api key")).
  reflexivity.
Defined.

(** C10: the client is checked before the prompt: without a client every
    request, also one without a prompt, gets the 500 response "AI Client
    not initialized...", never the 400 of the validation. *)
Theorem initialization_checked_before_prompt (num : Type)
    (generate_content : Client -> pystr -> pystr -> pystr -> exn + pystr)
    (to_json : list (Item num) -> pystr) (format_value : pyval -> pystr)
    (format_exn : exn -> pystr)
    (data : list (Item num)) (req : exn + pyval) :
  snd (chat_api generate_content to_json format_value format_exn None data req)
  = Response NOT_INITIALIZED 500 /\
  status_of (snd (chat_api generate_content to_json format_value format_exn
                    None data req)) <> Some 400.
Proof.
  rewrite chat_api_no_client. simpl. split; [reflexivity | discriminate].
Qed.

(** * Further properties *)

(** ** Lists in strictly increasing order *)

(** Two lists whose images are strictly increasing and that have the
    same members are the same list. *)
Lemma strict_sorted_ext {A B : Type} {CB : Cmp B} {LB : CmpLaws B}
    (f : A -> B) (l l' : list A) :
  StronglySorted clt (map f l) -> StronglySorted clt (map f l') ->
  (forall x, In x l <-> In x l') -> l = l'.
Proof.
  revert l'. induction l as [|x l IH]; intros [|y l'] Hs Hs' Hm.
  - reflexivity.
  - exfalso. apply (Hm y). now left.
  - exfalso. apply (Hm x). now left.
  - simpl in Hs, Hs'.
    inversion Hs as [|? ? Hsl Hx]; subst.
    inversion Hs' as [|? ? Hsl' Hy]; subst.
    rewrite Forall_forall in Hx, Hy.
    assert (Hbelow : forall z, In z l -> clt (f x) (f z))
      by (intros z Hz; apply Hx; now apply in_map).
    assert (Hbelow' : forall z, In z l' -> clt (f y) (f z))
      by (intros z Hz; apply Hy; now apply in_map).
    assert (Hxy : x = y).
    { destruct (proj1 (Hm x) (or_introl eq_refl)) as [Hyx | Hxl']; [now symmetry|].
      destruct (proj2 (Hm y) (or_introl eq_refl)) as [Hxy | Hyl]; [trivial|].
      exfalso. apply (@clt_irrefl B _ _ (f x)).
      exact (clt_trans (Hbelow y Hyl) (Hbelow' x Hxl')). }
    subst y. f_equal. apply IH; trivial.
    intros z. split; intros Hz.
    + destruct (proj1 (Hm z) (or_intror Hz)) as [<- | Hz']; [|trivial].
      exfalso. exact (clt_irrefl (Hbelow x Hz)).
    + destruct (proj2 (Hm z) (or_intror Hz)) as [<- | Hz']; [|trivial].
      exfalso. exact (clt_irrefl (Hbelow' x Hz)).
Qed.

Lemma filter_none {A} (f : A -> bool) (l : list A) :
  (forall x, In x l -> f x = false) -> filter f l = [].
Proof.
  induction l as [|x l IH]; simpl; intros Hall; trivial.
  rewrite (Hall x (or_introl eq_refl)). apply IH. intros y Hy. apply Hall. now right.
Qed.

(** ** More on the loader *)

Section LoaderExtras.
Context (num : Type) {Hnum : Numeric num}.

(** Membership in the aggregation: the key is the key of a row and the
    price is the rounded mean of the prices of the rows with that key. *)
Lemma aggregate_In_iff (df : DataFrame num) (it : Item num) :
  In it (aggregate df) <->
  (exists r, In r (rows df) /\ key_of r = Some (item_key it)) /\
  item_price it =
  round (mean (prices (filter (has_key (item_key it)) (rows df)))) 2.
Proof.
  split.
  - intros Hin. split; [exact (aggregate_has_row _ _ Hin) | now apply aggregate_price].
  - intros [Hr Hp]. destruct df as [cols rs].
    destruct (groupby_spec cols rs) as (Hs & Hk & Hv).
    apply Hk in Hr. apply in_map_iff in Hr.
    destruct Hr as ([k ps] & Hfst & Hin). simpl in Hfst. subst k.
    apply strict_sorted_NoDup in Hs.
    assert (Hps := values_of_In _ _ _ Hs Hin). rewrite Hv in Hps.
    unfold aggregate, round_price, mean_reset_index.
    rewrite map_map. apply in_map_iff.
    exists (item_key it, ps). split; [|exact Hin].
    destruct it as [l u n p]. simpl in *. f_equal.
    rewrite Hp. unfold prices. now rewrite Hps.
Qed.

(** The records of a table. *)
Lemma PI_DATA_table (df : DataFrame num) :
  PI_DATA (Table df) = if has_columns df then aggregate (surviving df) else [].
Proof.
  assert (Hl := loaded_table df). rewrite PI_DATA_loaded in Hl.
  destruct (has_columns df); now injection Hl.
Qed.

Lemma PI_DATA_cases (file : ParquetFile num) :
  PI_DATA file = [] \/
  exists df, file = Table df /\ has_columns df = true /\
             PI_DATA file = aggregate (surviving df).
Proof.
  destruct file as [| e | df].
  - now left.
  - left. now destruct e.
  - rewrite PI_DATA_table. destruct (has_columns df) eqn:E; [|now left].
    right. now exists df.
Qed.

(** What the loader prints and returns for a table. *)
Lemma load_item_data_table (df : DataFrame num) :
  load_item_data (Table df) =
  if has_columns df then
    (LogLoaded (List.length (aggregate (surviving df))), loaded (Table df))
  else
    (LogMissingColumn (missing_columns df), ([], [], [])).
Proof.
  unfold loaded, load_item_data. rewrite load_item_data_try_eq. simpl.
  rewrite cleaned_spec. now destruct (has_columns df).
Qed.

Lemma In_row_keys (rs : list (Row num)) (k : key) :
  In k (row_keys rs) <-> exists r, In r rs /\ key_of r = Some k.
Proof.
  unfold row_keys. rewrite in_flat_map. split.
  - intros (r & Hr & Hk). exists r. split; trivial.
    destruct (key_of r) as [k'|]; simpl in Hk; [|contradiction].
    destruct Hk as [-> | []]. reflexivity.
  - intros (r & Hr & Hk). exists r. split; trivial. rewrite Hk. now left.
Qed.

Lemma aggregate_key_iff (df : DataFrame num) (k : key) :
  In k (map (@item_key num) (aggregate df)) <->
  exists r, In r (rows df) /\ key_of r = Some k.
Proof.
  rewrite aggregate_keys. destruct df as [cols rs]. apply (groupby_spec cols rs).
Qed.

(** A row with another key does not change whether a record is in the
    aggregation. *)
Lemma aggregate_other_key (cols : list pystr) (before after : list (Row num))
    (r : Row num) (it : Item num) :
  key_of r <> Some (item_key it) ->
  In it (aggregate {| columns := cols; rows := before ++ r :: after |}) <->
  In it (aggregate {| columns := cols; rows := before ++ after |}).
Proof.
  intros Hk. rewrite !aggregate_In_iff. simpl.
  assert (Hf : has_key (item_key it) r = false).
  { destruct (has_key (item_key it) r) eqn:E; trivial.
    apply has_key_iff in E. contradiction. }
  rewrite !filter_app. simpl. rewrite Hf.
  split; intros [(r' & Hr' & Hk') Hp]; (split; [|exact Hp]); exists r';
    (split; [|exact Hk']); apply in_or_app; apply in_app_or in Hr'.
  - destruct Hr' as [Hr' | [<- | Hr']]; [now left | contradiction | now right].
  - destruct Hr' as [Hr' | Hr']; [now left | right; now right].
Qed.
End LoaderExtras.

Lemma surviving_key_iff (num : Type) (rs rs' : list (Row num)) (k : key) :
  Permutation rs rs' ->
  (exists r, In r (filter (@survives num) rs) /\ key_of r = Some k) <->
  (exists r, In r (filter (@survives num) rs') /\ key_of r = Some k).
Proof.
  intros Hp.
  split; intros (r & Hr & Hk); exists r; (split; [|exact Hk]);
    apply filter_In in Hr; apply filter_In; destruct Hr as [Hr Hs]; split; trivial.
  - now apply (Permutation_in _ Hp).
  - now apply (Permutation_in _ (Permutation_sym Hp)).
Qed.

(** X1: for a table that has the required columns, the keys of the
    aggregated records are exactly the keys of the rows that survive the
    cleaning: every record comes from a surviving row, and every
    surviving row has its record. *)
Theorem record_keys_are_surviving_keys (num : Type) (Hnum : Numeric num)
    (df : DataFrame num) (k : key) :
  has_columns df = true ->
  (In k (map (@item_key num) (PI_DATA (Table df))) <->
   exists r, In r (rows df) /\ survives r = true /\ key_of r = Some k).
Proof.
  intros Hc. rewrite PI_DATA_table, Hc, aggregate_key_iff. simpl.
  split; intros (r & Hr & Hk); exists r.
  - apply filter_In in Hr. tauto.
  - split; [apply filter_In|]; tauto.
Qed.

Lemma record_keys_are_surviving_keys_rice :
  In (of_ascii "KL", of_ascii "kg", of_ascii "Rice")
     (map (@item_key float) (PI_DATA (Table rice_table))) <->
  exists r, In r (rows rice_table) /\ survives r = true /\
            key_of r = Some (of_ascii "KL", of_ascii "kg", of_ascii "Rice").
Proof.
  apply (@record_keys_are_surviving_keys float Numeric_float rice_table). reflexivity.
Defined.

(** X2: no aggregated record has an empty or whitespace-only name,
    whatever the source. *)
Theorem record_names_not_blank (num : Type) (Hnum : Numeric num)
    (file : ParquetFile num) (it : Item num) :
  In it (PI_DATA file) -> blank (item_name it) = false.
Proof.
  intros Hin.
  destruct (PI_DATA_cases file) as [Hnil | (df & -> & Hc & Hagg)].
  - rewrite Hnil in Hin. contradiction.
  - rewrite Hagg in Hin.
    destruct (aggregate_has_row _ _ Hin) as (r & Hr & Hk).
    simpl in Hr. apply filter_In in Hr. destruct Hr as [_ Hs].
    destruct (survives_fields r Hs) as (n & p & l & u & Hn & _ & Hl & Hu & Hb).
    unfold key_of in Hk. rewrite Hn, Hl, Hu in Hk.
    destruct it as [il iu iname ip]. unfold item_key in Hk. simpl in Hk.
    injection Hk as _ _ Hname. simpl. now rewrite <- Hname.
Qed.

Lemma record_names_not_blank_rice : blank (item_name rice_record) = false.
Proof.
  apply (@record_names_not_blank float Numeric_float (Table rice_table)).
  left. reflexivity.
Defined.

(** X3: the loader returns no record for a table exactly when the
    schema lacks a required column or no row survives the cleaning. *)
Theorem no_records_iff (num : Type) (Hnum : Numeric num) (df : DataFrame num) :
  PI_DATA (Table df) = [] <-> has_columns df = false \/ no_survivor df.
Proof.
  rewrite PI_DATA_table. destruct (has_columns df) eqn:Hc.
  - split.
    + intros Hnil. right. intros r Hr.
      destruct (survives r) eqn:Hs; trivial. exfalso.
      destruct (survives_fields r Hs) as (n & p & l & u & Hn & _ & Hl & Hu & _).
      assert (Hk : In (l, u, n) (map (@item_key num) (aggregate (surviving df)))).
      { apply aggregate_key_iff. exists r. split.
        - simpl. apply filter_In. now split.
        - unfold key_of. now rewrite Hn, Hl, Hu. }
      rewrite Hnil in Hk. contradiction.
    + intros [Hf | Hno]; [discriminate|].
      unfold surviving. now rewrite (filter_none _ _ Hno).
  - split; [now left | reflexivity].
Qed.

(** X4: for a table that has the required columns, the count the loader
    prints is the number of records it returns, and that is the number
    of distinct keys among the surviving rows. *)
Theorem record_count_is_distinct_keys (num : Type) (Hnum : Numeric num)
    (df : DataFrame num) :
  has_columns df = true ->
  fst (load_item_data (Table df)) = LogLoaded (List.length (PI_DATA (Table df))) /\
  List.length (PI_DATA (Table df)) =
  List.length (unique (row_keys (rows (surviving df)))).
Proof.
  intros Hc. rewrite load_item_data_table, PI_DATA_table, Hc.
  split; [reflexivity|].
  rewrite <- (length_map (@item_key num)).
  apply Permutation_length, NoDup_Permutation.
  - apply strict_sorted_NoDup, aggregate_sorted.
  - apply NoDup_unique_from.
  - intros k. now rewrite aggregate_key_iff, In_unique, In_row_keys.
Qed.

Lemma record_count_is_distinct_keys_rice :
  fst (load_item_data (Table rice_table)) =
  LogLoaded (List.length (PI_DATA (Table rice_table))) /\
  List.length (PI_DATA (Table rice_table)) =
  List.length (unique (row_keys (rows (surviving rice_table)))).
Proof.
  apply (@record_count_is_distinct_keys float Numeric_float rice_table). reflexivity.
Defined.

(** X5: for a table whose schema lacks a required column, the loader
    returns the three empty collections and prints the missing labels:
    a non-empty list that holds exactly the required labels that are not
    columns of the table, whatever its rows are. *)
Theorem missing_columns_logged (num : Type) (Hnum : Numeric num)
    (df : DataFrame num) :
  has_columns df = false ->
  load_item_data (Table df) = (LogMissingColumn (missing_columns df), ([], [], [])) /\
  missing_columns df <> [] /\
  (forall c, In c (missing_columns df) <-> In c REQUIRED /\ ~ In c (columns df)).
Proof.
  intros Hc. rewrite load_item_data_table, Hc. split; [reflexivity|]. split.
  - intros Hnil. unfold missing_columns in Hnil.
    apply filter_negb_nil in Hnil. unfold has_columns in Hc. congruence.
  - intros c. unfold missing_columns. rewrite filter_In, negb_true_iff.
    rewrite <- (mem_In c (columns df)).
    destruct (mem c (columns df)); intuition congruence.
Qed.

Lemma missing_columns_logged_no_price :
  load_item_data (Table no_price_table) =
  (LogMissingColumn (missing_columns no_price_table), ([], [], [])) /\
  missing_columns no_price_table = [COL_PRICE].
Proof.
  split; [|reflexivity].
  apply (@missing_columns_logged float Numeric_float no_price_table). reflexivity.
Defined.

(** X6: the locations list and the units list are never longer than the
    list of aggregated records. *)
Theorem category_lists_bounded (num : Type) (Hnum : Numeric num)
    (file : ParquetFile num) :
  List.length (UNIQUE_LOCATIONS file) <= List.length (PI_DATA file) /\
  List.length (UNIQUE_UNITS file) <= List.length (PI_DATA file).
Proof.
  destruct (load_results file) as (df & _ & -> & ->).
  split.
  - rewrite <- (length_map (@item_location num) (PI_DATA file)).
    apply NoDup_incl_length.
    + apply strict_sorted_NoDup, sorted_unique_strict.
    + intros s. now rewrite In_sorted, In_unique.
  - rewrite <- (length_map (@item_unit num) (PI_DATA file)).
    apply NoDup_incl_length.
    + apply strict_sorted_NoDup, sorted_unique_strict.
    + intros s. now rewrite In_sorted, In_unique.
Qed.

Lemma has_columns_rows (num : Type) (cols : list pystr) (rs rs' : list (Row num)) :
  has_columns {| columns := cols; rows := rs |} =
  has_columns {| columns := cols; rows := rs' |}.
Proof. reflexivity. Qed.

(** X7: the order of the rows in the table does not matter for the keys
    of the aggregated records, nor for the locations and units lists. *)
Theorem keys_independent_of_row_order (num : Type) (Hnum : Numeric num)
    (cols : list pystr) (rs rs' : list (Row num)) :
  Permutation rs rs' ->
  let file := Table {| columns := cols; rows := rs |} in
  let file' := Table {| columns := cols; rows := rs' |} in
  map (@item_key num) (PI_DATA file) = map (@item_key num) (PI_DATA file') /\
  UNIQUE_LOCATIONS file = UNIQUE_LOCATIONS file' /\
  UNIQUE_UNITS file = UNIQUE_UNITS file'.
Proof.
  intros Hp file file'.
  assert (Hk : map (@item_key num) (PI_DATA file) = map (@item_key num) (PI_DATA file')).
  { subst file file'. rewrite !PI_DATA_table, (has_columns_rows cols rs rs').
    destruct (has_columns _); [|reflexivity].
    apply (strict_sorted_ext (fun k : key => k)).
    - rewrite map_id. apply aggregate_sorted.
    - rewrite map_id. apply aggregate_sorted.
    - intros k. rewrite !aggregate_key_iff. simpl. now apply surviving_key_iff. }
  split; [exact Hk|].
  destruct (load_results file) as (_ & _ & -> & ->).
  destruct (load_results file') as (_ & _ & -> & ->).
  assert (Hl : map (@item_location num) (PI_DATA file) =
               map (fun k : key => fst (fst k)) (map (@item_key num) (PI_DATA file)))
    by (rewrite map_map; reflexivity).
  assert (Hl' : map (@item_location num) (PI_DATA file') =
                map (fun k : key => fst (fst k)) (map (@item_key num) (PI_DATA file')))
    by (rewrite map_map; reflexivity).
  assert (Hu : map (@item_unit num) (PI_DATA file) =
               map (fun k : key => snd (fst k)) (map (@item_key num) (PI_DATA file)))
    by (rewrite map_map; reflexivity).
  assert (Hu' : map (@item_unit num) (PI_DATA file') =
                map (fun k : key => snd (fst k)) (map (@item_key num) (PI_DATA file')))
    by (rewrite map_map; reflexivity).
  rewrite Hl, Hl', Hu, Hu', Hk. split; reflexivity.
Qed.

Lemma keys_independent_of_row_order_rice :
  map (@item_key float) (PI_DATA (Table rice_table)) =
  map (@item_key float) (PI_DATA (Table rice_table_swapped)).
Proof.
  refine (proj1 (@keys_independent_of_row_order float Numeric_float all_columns
                   (rows rice_table) (rows rice_table_swapped) _)).
  apply perm_swap.
Defined.

(** X9: a row changes nothing about the records of the other keys: with
    the row or without it, the same records with a key other than the
    row's are returned. *)
Theorem other_groups_untouched (num : Type) (Hnum : Numeric num)
    (cols : list pystr) (before : list (Row num)) (r : Row num)
    (after : list (Row num)) (it : Item num) :
  key_of r <> Some (item_key it) ->
  (In it (PI_DATA (Table (with_row cols before r after))) <->
   In it (PI_DATA (Table (without_row cols before after)))).
Proof.
  intros Hk. rewrite !PI_DATA_table.
  unfold with_row, without_row.
  rewrite (has_columns_rows cols (before ++ r :: after) (before ++ after)).
  destruct (has_columns _); [|reflexivity].
  unfold surviving. simpl. rewrite !filter_app. simpl.
  destruct (survives r); [|reflexivity].
  now apply aggregate_other_key.
Qed.

Lemma other_groups_untouched_sugar :
  In rice_record (PI_DATA (Table (with_row all_columns (rows rice_table) sugar_row []))) <->
  In rice_record (PI_DATA (Table (without_row all_columns (rows rice_table) []))).
Proof.
  apply (@other_groups_untouched float Numeric_float). discriminate.
Defined.

(** ** More on the chat endpoint *)

Section ChatExtras.
Context (num : Type).
Variable generate_content : Client -> pystr -> pystr -> pystr -> exn + pystr.
Variable to_json : list (Item num) -> pystr.
Variable format_value : pyval -> pystr.
Variable format_exn : exn -> pystr.

Local Abbreviation handler :=
  (chat_api generate_content to_json format_value format_exn).
Local Abbreviation prompt_for data user_prompt :=
  (full_prompt_of format_value (to_json data) user_prompt).

(** With a client and a truthy prompt the handler builds the prompt,
    calls the remote service once and turns its result into a response. *)
Lemma chat_api_truthy_prompt (client : Client) (data : list (Item num))
    (d : list (pystr * pyval)) :
  truthy (dict_get d (of_ascii "prompt")) = true ->
  handler (Some client) data (inr (PyDict d)) =
  let user_prompt := dict_get d (of_ascii "prompt") in
  let built := PromptBuilt (system_instruction_of data) (prompt_for data user_prompt) in
  let sent :=
    Dispatched GEMINI_MODEL (prompt_for data user_prompt) (system_instruction_of data) in
  match generate_content client GEMINI_MODEL (prompt_for data user_prompt)
          (system_instruction_of data) with
  | inr text => ([built; sent], Response text 200)
  | inl e =>
      ([built; sent; Printed (of_ascii "Gemini API Error: " ++ format_exn e)],
       Response (SORRY ++ format_exn e) 500)
  end.
Proof.
  intros H. unfold chat_api. simpl. rewrite H. reflexivity.
Qed.

Lemma chat_api_not_dict (client : Client) (data : list (Item num)) (v : pyval) :
  is_dict v = false ->
  handler (Some client) data (inr v) =
  ([], Unhandled (AttributeError (of_ascii "get"))).
Proof. destruct v; try reflexivity. discriminate. Qed.

Lemma chat_api_no_json (client : Client) (data : list (Item num)) (e : exn) :
  handler (Some client) data (inl e) = ([], Unhandled e).
Proof. reflexivity. Qed.

(** X10: the remote service is called exactly when the client is
    initialized, the request body is a JSON object and its [prompt] is
    truthy. *)
Theorem dispatched_iff (gemini_client : option Client) (data : list (Item num))
    (req : exn + pyval) :
  existsb is_dispatched (fst (handler gemini_client data req)) = true <->
  exists client d,
    gemini_client = Some client /\ req = inr (PyDict d) /\
    truthy (dict_get d (of_ascii "prompt")) = true.
Proof.
  split.
  - destruct gemini_client as [client|]; [|rewrite chat_api_no_client; discriminate].
    destruct req as [e|v]; [rewrite chat_api_no_json; discriminate|].
    destruct (is_dict v) eqn:Hv; [|rewrite chat_api_not_dict by exact Hv; discriminate].
    destruct v as [| | | | | |d]; try discriminate.
    destruct (truthy (dict_get d (of_ascii "prompt"))) eqn:Ht.
    + intros _. now exists client, d.
    + rewrite chat_api_falsy_prompt by exact Ht. discriminate.
  - intros (client & d & -> & -> & Ht).
    rewrite chat_api_truthy_prompt by exact Ht. simpl.
    now destruct (generate_content _ _ _ _).
Qed.

(** X11: a request causes at most one call to the remote service, also
    when that call fails; the call names the model [gemini-2.5-flash]
    and carries the prompt built from the loaded records and from the
    [prompt] of this request's body, with the system instruction built
    from the loaded records. *)
Theorem at_most_one_dispatch (gemini_client : option Client)
    (data : list (Item num)) (req : exn + pyval) :
  dispatches (fst (handler gemini_client data req)) = [] \/
  exists client d,
    gemini_client = Some client /\ req = inr (PyDict d) /\
    dispatches (fst (handler gemini_client data req)) =
    [Dispatched GEMINI_MODEL
       (prompt_for data (dict_get d (of_ascii "prompt")))
       (system_instruction_of data)] /\
    In (PromptBuilt (system_instruction_of data)
          (prompt_for data (dict_get d (of_ascii "prompt"))))
       (fst (handler gemini_client data req)).
Proof.
  destruct gemini_client as [client|]; [|left; reflexivity].
  destruct req as [e|v]; [left; reflexivity|].
  destruct (is_dict v) eqn:Hv; [|left; now rewrite chat_api_not_dict].
  destruct v as [| | | | | |d]; try discriminate.
  destruct (truthy (dict_get d (of_ascii "prompt"))) eqn:Ht.
  - right. exists client, d. split; [reflexivity|]. split; [reflexivity|].
    rewrite chat_api_truthy_prompt by exact Ht. simpl.
    destruct (generate_content _ _ _ _); simpl; auto.
  - left. now rewrite chat_api_falsy_prompt.
Qed.

(** X12: an exception leaves the handler only when the client is
    initialized and either reading [request.json] raised it, or the body
    is not a JSON object and [.get] raised [AttributeError]; an
    exception of the remote service never leaves it. *)
Theorem unhandled_iff (gemini_client : option Client) (data : list (Item num))
    (req : exn + pyval) (e : exn) :
  snd (handler gemini_client data req) = Unhandled e <->
  gemini_client <> None /\
  (req = inl e \/
   exists v, req = inr v /\ is_dict v = false /\ e = AttributeError (of_ascii "get")).
Proof.
  split.
  - destruct gemini_client as [client|]; [|rewrite chat_api_no_client; discriminate].
    intros H. split; [discriminate|].
    destruct req as [e'|v].
    + rewrite chat_api_no_json in H. simpl in H. left. congruence.
    + right. exists v. split; trivial.
      destruct (is_dict v) eqn:Hv.
      * exfalso. destruct v as [| | | | | |d]; try discriminate.
        destruct (truthy (dict_get d (of_ascii "prompt"))) eqn:Ht.
        -- rewrite chat_api_truthy_prompt in H by exact Ht. simpl in H.
           destruct (generate_content _ _ _ _); discriminate.
        -- rewrite chat_api_falsy_prompt in H by exact Ht. discriminate.
      * rewrite chat_api_not_dict in H by exact Hv. simpl in H.
        split; congruence.
  - intros [Hc [-> | (v & -> & Hv & ->)]];
      (destruct gemini_client as [client|]; [|contradiction]).
    + now rewrite chat_api_no_json.
    + now rewrite chat_api_not_dict.
Qed.

(** X13: every response has status 200, 400 or 500, and a 200 response
    carries, unchanged, the text the remote service returned for the
    prompt built from this request. *)
Theorem response_statuses (gemini_client : option Client) (data : list (Item num))
    (req : exn + pyval) (body : pystr) (status : nat) :
  snd (handler gemini_client data req) = Response body status ->
  (status = 200 \/ status = 400 \/ status = 500) /\
  (status = 200 ->
   exists client d,
     gemini_client = Some client /\ req = inr (PyDict d) /\
     generate_content client GEMINI_MODEL
       (prompt_for data (dict_get d (of_ascii "prompt")))
       (system_instruction_of data) = inr body).
Proof.
  destruct gemini_client as [client|].
  2:{ rewrite chat_api_no_client. simpl. intros [= <- <-].
      split; [auto | discriminate]. }
  destruct req as [e|v]; [rewrite chat_api_no_json; discriminate|].
  destruct (is_dict v) eqn:Hv; [|rewrite chat_api_not_dict by exact Hv; discriminate].
  destruct v as [| | | | | |d]; try discriminate.
  destruct (truthy (dict_get d (of_ascii "prompt"))) eqn:Ht.
  - rewrite chat_api_truthy_prompt by exact Ht. simpl.
    destruct (generate_content _ _ _ _) as [e|text] eqn:Hg; simpl; intros [= <- <-].
    + split; [auto | discriminate].
    + split; [auto|]. intros _. now exists client, d.
  - rewrite chat_api_falsy_prompt by exact Ht. simpl. intros [= <- <-].
    split; [auto | discriminate].
Qed.

(** X14: when the remote call raises, the handler answers 500 with the
    apology followed by the exception's text, prints the error, and does
    not call the service again. *)
Theorem remote_failure_is_500 (client : Client) (data : list (Item num))
    (d : list (pystr * pyval)) (e : exn) :
  truthy (dict_get d (of_ascii "prompt")) = true ->
  generate_content client GEMINI_MODEL
    (prompt_for data (dict_get d (of_ascii "prompt")))
    (system_instruction_of data) = inl e ->
  snd (handler (Some client) data (inr (PyDict d))) =
  Response (SORRY ++ format_exn e) 500 /\
  List.length (dispatches (fst (handler (Some client) data (inr (PyDict d))))) = 1 /\
  In (Printed (of_ascii "Gemini API Error: " ++ format_exn e))
     (fst (handler (Some client) data (inr (PyDict d)))).
Proof.
  intros Ht Hg. rewrite chat_api_truthy_prompt by exact Ht. simpl.
  rewrite Hg. simpl. split; [reflexivity|]. split; [reflexivity|].
  right. right. now left.
Qed.

(** X15: the validation tests the truth value of the prompt, not its
    content: every non-empty string, also one of whitespace only, is
    sent to the remote service and is not answered 400. *)
Theorem nonempty_prompt_dispatched (client : Client) (data : list (Item num))
    (d : list (pystr * pyval)) (s : pystr) :
  dict_get d (of_ascii "prompt") = PyStr s -> s <> [] ->
  existsb is_dispatched (fst (handler (Some client) data (inr (PyDict d)))) = true /\
  status_of (snd (handler (Some client) data (inr (PyDict d)))) <> Some 400.
Proof.
  intros Hd Hs.
  assert (Ht : truthy (dict_get d (of_ascii "prompt")) = true).
  { rewrite Hd. destruct s; [contradiction | reflexivity]. }
  rewrite chat_api_truthy_prompt by exact Ht. simpl.
  destruct (generate_content _ _ _ _); simpl; split; trivial; discriminate.
Qed.

(** The prompt is the data section followed by the question. *)
Lemma full_prompt_suffix (item_data_json : pystr) (user_prompt : pyval) :
  exists data_section,
    (forall v, full_prompt_of format_value item_data_json v =
               data_section ++ format_value v) /\
    full_prompt_of format_value item_data_json user_prompt =
    data_section ++ format_value user_prompt.
Proof.
  exists (of_ascii "Data for analysis (JSON Array of Objects):" ++ newline
          ++ of_ascii "```json" ++ newline ++ item_data_json ++ newline
          ++ of_ascii "```" ++ newline ++ newline
          ++ of_ascii "User Question:" ++ newline).
  split; [intros v|]; unfold full_prompt_of; now rewrite <- !app_assoc.
Qed.
End ChatExtras.

Lemma response_statuses_echo :
  (200 = 200 \/ 200 = 400 \/ 200 = 500) /\
  (200 = 200 ->
   exists client d,
     Some sample_client = Some client /\
     question "cheapest rice?" = inr (PyDict d) /\
     echo_service client GEMINI_MODEL
       (full_prompt_of show_value (no_json []) (dict_get d (of_ascii "prompt")))
       (@system_instruction_of float []) =
     inr (full_prompt_of show_value (no_json [])
            (PyStr (of_ascii "cheapest rice?")))).
Proof.
  exact (@response_statuses float echo_service no_json show_value show_exn
           (Some sample_client) [] (question "cheapest rice?")
           (full_prompt_of show_value (no_json [])
              (PyStr (of_ascii "cheapest rice?")))
           200 eq_refl).
Defined.

Lemma remote_failure_is_500_quota :
  snd (chat_api failing_service no_json show_value show_exn (Some sample_client) []
         (question "cheapest rice?")) =
  Response (SORRY ++ show_exn (OtherException (of_ascii "quota"))) 500.
Proof.
  refine (proj1 (@remote_failure_is_500 float failing_service no_json show_value show_exn
                   sample_client []
                   [(of_ascii "prompt", PyStr (of_ascii "cheapest rice?"))]
                   (OtherException (of_ascii "quota")) eq_refl eq_refl)).
Defined.

Lemma nonempty_prompt_dispatched_spaces :
  blank (of_ascii "  ") = true /\
  existsb is_dispatched
    (fst (chat_api echo_service no_json show_value show_exn (Some sample_client) []
            (question "  "))) = true.
Proof.
  split; [reflexivity|].
  refine (proj1 (@nonempty_prompt_dispatched float echo_service no_json show_value show_exn
                   sample_client [] [(of_ascii "prompt", PyStr (of_ascii "  "))]
                   (of_ascii "  ") eq_refl _)).
  discriminate.
Defined.

(** X16: what is sent to the remote service is a data section that
    depends only on the loaded records, followed by the prompt of the
    request as the f-string formats it. *)
Theorem question_ends_the_prompt (num : Type)
    (generate_content : Client -> pystr -> pystr -> pystr -> exn + pystr)
    (to_json : list (Item num) -> pystr) (format_value : pyval -> pystr)
    (format_exn : exn -> pystr) (data : list (Item num)) :
  exists data_section,
    forall (client : Client) (d : list (pystr * pyval)),
      truthy (dict_get d (of_ascii "prompt")) = true ->
      dispatches
        (fst (chat_api generate_content to_json format_value format_exn
                (Some client) data (inr (PyDict d)))) =
      [Dispatched GEMINI_MODEL
         (data_section ++ format_value (dict_get d (of_ascii "prompt")))
         (system_instruction_of data)].
Proof.
  destruct (full_prompt_suffix format_value (to_json data) PyNone)
    as (data_section & Hall & _).
  exists data_section. intros client d Ht.
  rewrite chat_api_truthy_prompt by exact Ht. simpl.
  rewrite <- Hall.
  now destruct (generate_content _ _ _ _).
Qed.

(** A failing source leaves no record, and so does a table none of whose
    rows survives. *)
Lemma loaded_failing (num : Type) {Hnum : Numeric num} (file : ParquetFile num) :
  failing_source file -> loaded file = ([], [], []).
Proof.
  destruct file as [| e | df]; simpl; intros Hf.
  - reflexivity.
  - unfold loaded, load_item_data. simpl. now destruct e.
  - now rewrite loaded_table, Hf.
Qed.

Lemma loaded_no_survivor (num : Type) {Hnum : Numeric num} (df : DataFrame num) :
  no_survivor df -> loaded (Table df) = ([], [], []).
Proof.
  intros Hno. rewrite loaded_table. destruct (has_columns df); [|reflexivity].
  unfold surviving. now rewrite (filter_none _ _ Hno).
Qed.

(** X17: a failed load does not disable the chat endpoint: the handler
    treats every request as it does with an empty list of records. *)
Theorem chat_after_failed_load (num : Type) (Hnum : Numeric num)
    (generate_content : Client -> pystr -> pystr -> pystr -> exn + pystr)
    (to_json : list (Item num) -> pystr) (format_value : pyval -> pystr)
    (format_exn : exn -> pystr)
    (file : ParquetFile num) (gemini_client : option Client) (req : exn + pyval) :
  failing_source file ->
  chat_api generate_content to_json format_value format_exn gemini_client
    (PI_DATA file) req =
  chat_api generate_content to_json format_value format_exn gemini_client [] req.
Proof.
  intros Hf. assert (Hl := loaded_failing file Hf).
  rewrite PI_DATA_loaded in Hl. injection Hl as -> _ _. reflexivity.
Qed.

Lemma chat_after_failed_load_absent :
  existsb is_dispatched
    (fst (chat_api echo_service no_json show_value show_exn (Some sample_client)
            (PI_DATA (@Absent float)) (question "cheapest rice?"))) = true.
Proof.
  rewrite (@chat_after_failed_load float Numeric_float echo_service no_json show_value
             show_exn (@Absent float) (Some sample_client) (question "cheapest rice?") I).
  reflexivity.
Defined.

(** X18: the home page of a source that failed to load is the home page
    of a table none of whose rows survives the cleaning: the page does
    not show that the load failed. *)
Theorem index_hides_load_failure (num : Type) (Hnum : Numeric num)
    (render_template : pystr -> list (pystr * TemplateValue num) -> pystr)
    (file : ParquetFile num) (df : DataFrame num) :
  failing_source file -> no_survivor df ->
  index render_template file = index render_template (Table df).
Proof.
  intros Hf Hno.
  assert (Hl := loaded_failing file Hf). rewrite PI_DATA_loaded in Hl.
  assert (Hl' := loaded_no_survivor Hno). rewrite PI_DATA_loaded in Hl'.
  unfold index. congruence.
Qed.

Lemma index_hides_load_failure_absent :
  index (fun _ context => of_ascii "page") (@Absent float) =
  index (fun _ context => of_ascii "page")
    (Table {| columns := all_columns; rows := [missing_price_row] |}).
Proof.
  apply (@index_hides_load_failure float Numeric_float); [exact I|].
  intros r [<- | []]. reflexivity.
Defined.

(** X19: the placeholder key is never used silently. The warning is
    printed exactly when the key given to the client constructor is the
    placeholder, that is when the variable is unset or holds the
    placeholder itself; any other value of the variable is the key in
    use, and no warning is printed. *)
Theorem placeholder_never_silent (placeholder : pystr)
    (genai_Client : pystr -> exn + Client) (GEMINI_API_KEY : option pystr) :
  (placeholder_warning placeholder GEMINI_API_KEY = true <->
   GEMINI_API_KEY = None \/ GEMINI_API_KEY = Some placeholder) /\
  (placeholder_warning placeholder GEMINI_API_KEY = true ->
   gemini_client placeholder genai_Client GEMINI_API_KEY =
   init_gemini_client (genai_Client placeholder)) /\
  (forall value, GEMINI_API_KEY = Some value -> value <> placeholder ->
     placeholder_warning placeholder GEMINI_API_KEY = false /\
     gemini_client placeholder genai_Client GEMINI_API_KEY =
     init_gemini_client (genai_Client value)).
Proof.
  unfold placeholder_warning, gemini_client.
  destruct GEMINI_API_KEY as [value|]; simpl.
  - split; [|split].
    + rewrite eqb_eq. split; [intros ->; now right | intros [H | H]; congruence].
    + rewrite eqb_eq. now intros ->.
    + intros v [= ->] Hv. split; [now apply eqb_neq | reflexivity].
  - rewrite eqb_refl. split; [|split]; auto.
    + split; auto.
    + intros v H. discriminate.
Qed.
